(** * PhotoConversionTool: a shallow embedding of [script.py] and [whatsapp.py]

    The two scripts normalise capture dates of media files.  [whatsapp.py]
    writes EXIF dates into JPEGs from the modified time or from the file
    name; [script.py] walks a tree and dispatches every file, by extension,
    to an EXIF write, an XMP sidecar, an ffmpeg remux or an ffmpeg
    transcode, keeping five counters.

    Layout of the development:
    - [Py]        the Python primitives the scripts rely on (strings, [int],
                  exceptions, [datetime], [pathlib] and [os.path] helpers);
    - [Re]        the fragment of [re] the scripts use, as a backtracking
                  matcher with groups;
    - [Os]        the file tree, the external collaborators (piexif, ffmpeg,
                  the calls that the operating system can refuse) and the
                  monad of state and exceptions in which the scripts run;
    - [Whatsapp]  the functions of [whatsapp.py];
    - [Script]    the functions of [script.py];
    - [WhatsappMain]  [main] of [whatsapp.py] from the folder listing on, and
                  the views of an EXIF dictionary that statements use;
    - [Fixtures]  sample files and collaborators, and the statements that
                  the examples refute;
    - [Facts], [Matcher], [Frame]  lemmas on strings and paths, on what the
                  patterns match, and on what a computation leaves alone;
    - [Resolver], [Batch], [Jpeg]  the properties of the timestamp resolver,
                  of the batch run of [script.py], and of [whatsapp.py];
    - [ExifFacts], [Names], [JpegRun]  further properties of [whatsapp.py]:
                  its EXIF helpers, the file names it reads dates from, and
                  a run over a folder;
    - [Tree]      further properties of [script.py]: the resolver, the
                  strategies, the counters and the files a walk can touch.

    Console output ([print]) is not modelled, but for the messages of
    [whatsapp.py], which are what its [main] prints.  Timestamps are the naive
    local date-times that [datetime.fromtimestamp] yields for them. *)

From Stdlib Require Import ZArith String Ascii List Bool Lia.
From stdpp Require Import base option strings gmap.

Local Open Scope string_scope.
Local Open Scope Z_scope.

(* ===================================================================== *)
(** * Python primitives *)
(* ===================================================================== *)

Module Py.

(** ** Exceptions and results *)

(** The exception classes that the modelled calls can raise. *)
Inductive exn : Type :=
| ValueError          (* int(), datetime() on bad values *)
| OSError             (* stat, getctime, open, remove, replace, utime *)
| KeyError            (* d[k] on a missing key *)
| ToolError.          (* piexif or subprocess failures *)

(** A call either returns a value or raises. *)
Inductive outcome (A : Type) : Type :=
| Ret (a : A)
| Raise (e : exn).
Arguments Ret {A} a.
Arguments Raise {A} e.

Definition bind {A B} (m : outcome A) (f : A -> outcome B) : outcome B :=
  match m with
  | Ret a => f a
  | Raise e => Raise e
  end.

(** [outcome] is a monad; sequencing is written [x ← m; k]. *)
#[export] Instance outcome_ret : MRet outcome := fun A a => Ret a.
#[export] Instance outcome_bind : MBind outcome := fun A B f m => bind m f.

(** ** Characters and strings *)

Definition is_digit (c : ascii) : bool :=
  let n := nat_of_ascii c in (48 <=? n)%nat && (n <=? 57)%nat.

Definition digit_val (c : ascii) : Z := Z.of_nat (nat_of_ascii c) - 48.

Fixpoint all_digits (s : string) : bool :=
  match s with
  | EmptyString => true
  | String c s' => is_digit c && all_digits s'
  end.

Fixpoint digits_value (acc : Z) (s : string) : Z :=
  match s with
  | EmptyString => acc
  | String c s' => digits_value (10 * acc + digit_val c) s'
  end.

(** [int(s)] on the strings the scripts pass to it: a non-empty run of
    decimal digits gives its value, anything else raises [ValueError]. *)
Definition int (s : string) : outcome Z :=
  match s with
  | EmptyString => Raise ValueError
  | _ => if all_digits s then Ret (digits_value 0 s) else Raise ValueError
  end.

(** [s[i:j]] for [0 <= i <= j]. *)
Definition slice (i j : nat) (s : string) : string := substring i (j - i) s.

(** [c in s] for a single character. *)
Fixpoint contains_char (c : ascii) (s : string) : bool :=
  match s with
  | EmptyString => false
  | String a s' => Ascii.eqb a c || contains_char c s'
  end.

(** [sub in s]. *)
Fixpoint contains (sub s : string) : bool :=
  String.prefix sub s ||
  match s with
  | EmptyString => false
  | String _ s' => contains sub s'
  end.

(** [s.startswith(p)]. *)
Definition startswith (p s : string) : bool := String.prefix p s.

(** [s.rfind(c)]: index of the last occurrence of [c]. *)
Fixpoint rfind (c : ascii) (s : string) : option nat :=
  match s with
  | EmptyString => None
  | String a s' =>
      match rfind c s' with
      | Some i => Some (S i)
      | None => if Ascii.eqb a c then Some 0%nat else None
      end
  end.

Definition lower_char (c : ascii) : ascii :=
  let n := nat_of_ascii c in
  if (65 <=? n)%nat && (n <=? 90)%nat then ascii_of_nat (n + 32) else c.

(** [s.lower()] on ASCII text. *)
Fixpoint lower (s : string) : string :=
  match s with
  | EmptyString => EmptyString
  | String c s' => String (lower_char c) (lower s')
  end.

(** Truthiness of a string ([if s:]). *)
Definition truthy (s : string) : bool :=
  match s with EmptyString => false | _ => true end.

(** Truthiness of an optional string ([None] and [""] are falsy). *)
Definition truthy_opt (o : option string) : bool :=
  match o with Some s => truthy s | None => false end.

(** ** [datetime] *)

Record datetime : Type := mkDT {
  year : Z; month : Z; day : Z;
  hour : Z; minute : Z; second : Z;
  microsecond : Z
}.

Definition is_leap (y : Z) : bool :=
  (y mod 4 =? 0) && (negb (y mod 100 =? 0) || (y mod 400 =? 0)).

Definition days_in_month (y m : Z) : Z :=
  if m =? 2 then (if is_leap y then 29 else 28)
  else if (m =? 4) || (m =? 6) || (m =? 9) || (m =? 11) then 30
  else 31.

Definition valid_date (y m d : Z) : bool :=
  (1 <=? y) && (y <=? 9999) && (1 <=? m) && (m <=? 12) &&
  (1 <=? d) && (d <=? days_in_month y m).

Definition valid_time (h mi s : Z) : bool :=
  (0 <=? h) && (h <=? 23) && (0 <=? mi) && (mi <=? 59) &&
  (0 <=? s) && (s <=? 59).

(** The constructor [datetime(y, m, d, h, mi, s)]: [ValueError] on a field
    out of range. *)
Definition datetime_new (y m d h mi s : Z) : outcome datetime :=
  if valid_date y m d && valid_time h mi s
  then Ret (mkDT y m d h mi s 0)
  else Raise ValueError.

(** Order on naive datetimes (field by field). *)
Definition dt_key (t : datetime) : list Z :=
  [year t; month t; day t; hour t; minute t; second t; microsecond t].

Fixpoint lex_ltb (a b : list Z) : bool :=
  match a, b with
  | x :: a', y :: b' => (x <? y) || ((x =? y) && lex_ltb a' b')
  | [], _ :: _ => true
  | _, _ => false
  end.

Definition dt_ltb (a b : datetime) : bool := lex_ltb (dt_key a) (dt_key b).

(** [min(a, b)]: the first argument unless the second is strictly less. *)
Definition dt_min (a b : datetime) : datetime := if dt_ltb b a then b else a.

(** Zero-padded decimal rendering of a non-negative number, as [strftime]
    prints date fields. *)
Definition digit_char (d : Z) : ascii := ascii_of_nat (Z.to_nat (48 + d mod 10)).

Fixpoint pad (width : nat) (n : Z) : string :=
  match width with
  | O => EmptyString
  | S w => pad w (n / 10) ++ String (digit_char n) EmptyString
  end.

(** [dt.strftime("%Y:%m:%d %H:%M:%S")]. *)
Definition strftime_exif (t : datetime) : string :=
  pad 4 (year t) ++ ":" ++ pad 2 (month t) ++ ":" ++ pad 2 (day t) ++ " " ++
  pad 2 (hour t) ++ ":" ++ pad 2 (minute t) ++ ":" ++ pad 2 (second t).

(** [dt.strftime("%Y-%m-%dT%H:%M:%S")]. *)
Definition strftime_iso (t : datetime) : string :=
  pad 4 (year t) ++ "-" ++ pad 2 (month t) ++ "-" ++ pad 2 (day t) ++ "T" ++
  pad 2 (hour t) ++ ":" ++ pad 2 (minute t) ++ ":" ++ pad 2 (second t).

(** ** Paths *)

(** [Path(name).stem] for a final path component: the name without its last
    suffix; a leading or a trailing dot starts no suffix. *)
Definition stem (name : string) : string :=
  match rfind "." name with
  | Some i =>
      if (0 <? i)%nat && (i <? String.length name - 1)%nat
      then slice 0 i name
      else name
  | None => name
  end.

Definition is_sep (c : ascii) : bool := Ascii.eqb c "\" || Ascii.eqb c "/".

(** Index of the last path separator. *)
Fixpoint rfind_sep (s : string) : option nat :=
  match s with
  | EmptyString => None
  | String a s' =>
      match rfind_sep s' with
      | Some i => Some (S i)
      | None => if is_sep a then Some 0%nat else None
      end
  end.

(** The loop of [genericpath._splitext] that skips leading dots of the last
    component: is there a character other than a dot in [p[from:dot]]? *)
Fixpoint has_non_dot (from count : nat) (p : string) : bool :=
  match count with
  | O => false
  | S n =>
      match String.get from p with
      | Some c => negb (Ascii.eqb c ".") || has_non_dot (S from) n p
      | None => false
      end
  end.

(** [os.path.splitext(p)] (separators [\] and [/]). *)
Definition splitext (p : string) : string * string :=
  let first := match rfind_sep p with Some i => S i | None => O end in
  match rfind "." p with
  | Some dot =>
      if (first <=? dot)%nat && has_non_dot first (dot - first) p
      then (slice 0 dot p, slice dot (String.length p) p)
      else (p, EmptyString)
  | None => (p, EmptyString)
  end.

End Py.

(* ===================================================================== *)
(** * The fragment of [re] used by the scripts *)
(* ===================================================================== *)

Module Re.
Import Py.

(** Pattern syntax.  Only what the patterns of the two scripts contain:
    literals, classes, concatenation, alternation, counted repetition, a
    greedy [+] on a class, groups, a lookahead and the anchor [^].  A
    numbered group is a [Group] named by its number. *)
Inductive regex : Type :=
| Bol                                   (* ^ *)
| Chr (c : ascii)                       (* a literal character *)
| Cls (p : ascii -> bool)               (* \d, [...] *)
| Cat (r1 r2 : regex)                   (* r1 r2 *)
| Alt (r1 r2 : regex)                   (* r1|r2 *)
| Rep (n : nat) (r : regex)             (* r{n} *)
| Plus (p : ascii -> bool)              (* c+ for a class c, greedy *)
| Group (name : string) (r : regex)     (* (?P<name>r), (r) *)
| Ahead (r : regex).                    (* (?=r) *)

Notation "r1 ⋅ r2" := (Cat r1 r2) (at level 40, left associativity).

(** The literal text [s]. *)
Fixpoint Str (s : string) : regex :=
  match s with
  | EmptyString => Rep 0 (Cls (fun _ => true))
  | String c EmptyString => Chr c
  | String c s' => Cat (Chr c) (Str s')
  end.

(** Group contents, in the order in which the groups closed. *)
Definition groups : Type := list (string * string).

(** The text consumed between the suffix [s] and its suffix [s']. *)
Definition consumed (s s' : string) : string :=
  substring 0 (String.length s - String.length s') s.

(** Greedy [c*] followed by the continuation [k]: the longest run first,
    then shorter ones on backtracking. *)
Fixpoint many (p : ascii -> bool) (s : string)
    (k : string -> option groups) : option groups :=
  match s with
  | String a s' =>
      if p a
      then match many p s' k with Some g => Some g | None => k s end
      else k s
  | EmptyString => k s
  end.

(** The backtracking matcher, in continuation-passing style: [run n r s g k]
    matches [r] at the suffix [s] of a subject of length [n], with the
    groups [g] closed so far, and hands the rest to [k].  The first success
    in Python's priority order is returned. *)
Fixpoint run (n : nat) (r : regex) (s : string) (g : groups)
    (k : string -> groups -> option groups) {struct r} : option groups :=
  match r with
  | Bol => if (String.length s =? n)%nat then k s g else None
  | Chr c =>
      match s with
      | String a s' => if Ascii.eqb a c then k s' g else None
      | EmptyString => None
      end
  | Cls p =>
      match s with
      | String a s' => if p a then k s' g else None
      | EmptyString => None
      end
  | Cat r1 r2 => run n r1 s g (fun s' g' => run n r2 s' g' k)
  | Alt r1 r2 =>
      match run n r1 s g k with
      | Some g' => Some g'
      | None => run n r2 s g k
      end
  | Rep m r1 =>
      (fix rep (m : nat) (s : string) (g : groups) : option groups :=
         match m with
         | O => k s g
         | S m' => run n r1 s g (rep m')
         end) m s g
  | Plus p =>
      match s with
      | String a s' => if p a then many p s' (fun t => k t g) else None
      | EmptyString => None
      end
  | Group name r1 =>
      run n r1 s g (fun s' g' => k s' ((g' ++ [(name, consumed s s')])%list))
  | Ahead r1 =>
      match run n r1 s g (fun _ g' => Some g') with
      | Some g' => k s g'
      | None => None
      end
  end.

(** [re.match]: the pattern applied at the start of the subject. *)
Definition re_match (r : regex) (s : string) : option groups :=
  run (String.length s) r s [] (fun _ g => Some g).

(** [re.search]: the first offset at which the pattern matches. *)
Fixpoint search_from (n : nat) (r : regex) (s : string) : option groups :=
  match run n r s [] (fun _ g => Some g) with
  | Some g => Some g
  | None =>
      match s with
      | String _ s' => search_from n r s'
      | EmptyString => None
      end
  end.

Definition re_search (r : regex) (s : string) : option groups :=
  search_from (String.length s) r s.

(** [m.group(name)]. *)
Fixpoint group (name : string) (g : groups) : option string :=
  match g with
  | [] => None
  | (n, v) :: g' => if String.eqb n name then Some v else group name g'
  end.

(** The group names of a pattern. *)
Fixpoint names (r : regex) : list string :=
  match r with
  | Cat r1 r2 | Alt r1 r2 => (names r1 ++ names r2)%list
  | Rep _ r1 | Ahead r1 => names r1
  | Group name r1 => name :: names r1
  | _ => []
  end.

(** [m.groupdict()]: every group name of the pattern, bound to what the
    group matched, or to [None] when it took no part in the match. *)
Definition groupdict (r : regex) (g : groups) : gmap string (option string) :=
  foldr (fun name d => <[name := group name g]> d) ∅ (names r).

(** [re.split] on a class of one-character separators. *)
Fixpoint split_on (p : ascii -> bool) (cur : string) (s : string) : list string :=
  match s with
  | EmptyString => [cur]
  | String a s' =>
      if p a then cur :: split_on p EmptyString s'
      else split_on p (cur ++ String a EmptyString) s'
  end.

Definition re_split (p : ascii -> bool) (s : string) : list string :=
  split_on p EmptyString s.

(** A compiled pattern keeps its source text ([pat.pattern]). *)
Record Pattern : Type := mkPattern { pattern : string; rx : regex }.

End Re.

(* ===================================================================== *)
(** * The file system and the external collaborators *)
(* ===================================================================== *)

Module Os.
Import Py.

(** What [piexif.load] returns: IFD name ("0th", "Exif", "GPS", "1st") to
    tag map.  Tag values are byte strings (the date tags are ASCII); the
    "thumbnail" entry is left out. *)
Abbreviation ExifDict := (gmap string (gmap Z string)).

(** A file: its timestamps, as the naive local date-times that
    [datetime.fromtimestamp] yields for them, the EXIF block that
    [piexif.load] finds in it ([None]: the load raises), the
    [creation_time] entry of its container metadata, and its other bytes. *)
Record File : Type := mkFile {
  ctime : datetime;
  mtime : datetime;
  atime : datetime;
  exif : option ExifDict;
  creation_time : option string;
  data : string
}.

Abbreviation Files := (gmap string File).

(** The calls into the operating system and into piexif that can be
    refused. *)
Inductive call : Type :=
| PiexifDump | PiexifInsert | OpenWrite | OsRemove | OsReplace | OsUtime.

(** A run of an external process under [subprocess.run(...,
    capture_output=True, text=True)]: the call returns the exit code and the
    captured diagnostic text, or raises; either way the process may have
    left a file at its output path. *)
Record Run : Type := mkRun {
  completed : outcome (Z * string);
  output : option File
}.

(** The collaborators of a run: the clock that stamps written files, which
    calls are refused on which path, and the ffmpeg executable, from its
    argument list to what the run does.  ffmpeg reads its input and writes
    nothing but its output path. *)
Record Env : Type := mkEnv {
  now : datetime;
  raises : call -> string -> bool;
  ffmpeg : list string -> Run
}.

(** ** Computations with state and exceptions

    An exception keeps the state reached when it was raised: what a
    function did before raising stays done. *)
Inductive result (S A : Type) : Type :=
| Done (a : A) (s : S)
| Fail (e : exn) (s : S).
Arguments Done {S A} a s.
Arguments Fail {S A} e s.

Definition M (S A : Type) : Type := S -> result S A.

Definition ret {S A} (a : A) : M S A := fun s => Done a s.
Definition raise {S A} (e : exn) : M S A := fun s => Fail e s.
Definition bindM {S A B} (m : M S A) (f : A -> M S B) : M S B :=
  fun s => match m s with
           | Done a s' => f a s'
           | Fail e s' => Fail e s'
           end.

(** [try: m except Exception as e: h e]. *)
Definition try_except {S A} (m : M S A) (h : exn -> M S A) : M S A :=
  fun s => match m s with
           | Done a s' => Done a s'
           | Fail e s' => h e s'
           end.

Definition get {S} : M S S := fun s => Done s s.
Definition put {S} (s : S) : M S unit := fun _ => Done tt s.
Definition modify {S} (f : S -> S) : M S unit := fun s => Done tt (f s).
Definition lift {S A} (o : outcome A) : M S A :=
  fun s => match o with Ret a => Done a s | Raise e => Fail e s end.

#[export] Instance M_ret {S} : MRet (M S) := fun A a => ret a.
#[export] Instance M_bind {S} : MBind (M S) := fun A B f m => bindM m f.

(** The state a result ends in, and its value. *)
Definition final {S A} (r : result S A) : S :=
  match r with Done _ s | Fail _ s => s end.

Definition returned {S A} (r : result S A) : option A :=
  match r with Done a _ => Some a | Fail _ _ => None end.

(** A computation preserves a relation [R] between the state it starts in
    and the state it ends in, whether it returns or raises. *)
Definition preserves {S A} (R : S -> S -> Prop) (m : M S A) : Prop :=
  forall s, R s (final (m s)).

(** ** File-system calls *)

(** [os.path.exists(p)]. *)
Definition exists_ (p : string) : M Files bool :=
  fun fs => Done (bool_decide (is_Some (fs !! p))) fs.

(** [os.stat(p)]: the file's attributes, [OSError] when it is missing. *)
Definition stat (p : string) : M Files File :=
  fun fs => match fs !! p with
            | Some f => Done f fs
            | None => Fail OSError fs
            end.

(** [datetime.fromtimestamp(os.path.getctime(p))] and the same for
    [getmtime]. *)
Definition getctime (p : string) : M Files datetime :=
  fun fs => match fs !! p with
            | Some f => Done (ctime f) fs
            | None => Fail OSError fs
            end.

Definition getmtime (p : string) : M Files datetime :=
  fun fs => match fs !! p with
            | Some f => Done (mtime f) fs
            | None => Fail OSError fs
            end.

(** [os.remove(p)]. *)
Definition remove (env : Env) (p : string) : M Files unit :=
  fun fs => match fs !! p with
            | Some _ =>
                if raises env OsRemove p then Fail OSError fs
                else Done tt (delete p fs)
            | None => Fail OSError fs
            end.

(** [os.replace(src, dst)]: [dst] becomes the file at [src]. *)
Definition replace (env : Env) (src dst : string) : M Files unit :=
  fun fs => match fs !! src with
            | Some f =>
                if raises env OsReplace dst then Fail OSError fs
                else Done tt (<[dst := f]> (delete src fs))
            | None => Fail OSError fs
            end.

(** [os.utime(p, (atime, mtime))]. *)
Definition utime (env : Env) (p : string) (a m : datetime) : M Files unit :=
  fun fs => match fs !! p with
            | Some f =>
                if raises env OsUtime p then Fail OSError fs
                else Done tt (<[p := mkFile (ctime f) m a (exif f)
                                            (creation_time f) (data f)]> fs)
            | None => Fail OSError fs
            end.

(** [with open(p, "w") as f: f.write(text)]: a new file, or the old one
    truncated and rewritten. *)
Definition write_text (env : Env) (p : string) (text : string) : M Files unit :=
  fun fs => if raises env OpenWrite p then Fail OSError fs
            else
              let c := match fs !! p with Some f => ctime f | None => now env end in
              Done tt (<[p := mkFile c (now env) (now env) None None text]> fs).

(** [piexif.load(p)]. *)
Definition piexif_load (p : string) : M Files ExifDict :=
  fun fs => match fs !! p with
            | Some f =>
                match exif f with
                | Some d => Done d fs
                | None => Fail ToolError fs
                end
            | None => Fail OSError fs
            end.

(** [piexif.insert(piexif.dump(d), p)]: the file at [p] carries the EXIF
    block [d] afterwards and has been rewritten now. *)
Definition piexif_dump_insert (env : Env) (d : ExifDict) (p : string) : M Files unit :=
  fun fs => if raises env PiexifDump p then Fail ToolError fs
            else match fs !! p with
                 | Some f =>
                     if raises env PiexifInsert p then Fail ToolError fs
                     else Done tt (<[p := mkFile (ctime f) (now env) (now env)
                                                 (Some d) (creation_time f)
                                                 (data f)]> fs)
                 | None => Fail OSError fs
                 end.

(** [subprocess.run(["ffmpeg", ...])] with output path [out] ([None] for
    an inspect-only call): the file the process left is in place before the
    call returns or raises. *)
Definition run_ffmpeg (env : Env) (args : list string) (out : option string)
  : M Files (Z * string) :=
  fun fs =>
    let r := ffmpeg env args in
    let fs' := match out, output r with
               | Some p, Some f => <[p := f]> fs
               | _, _ => fs
               end in
    match completed r with
    | Ret c => Done c fs'
    | Raise e => Fail e fs'
    end.

End Os.

(* ===================================================================== *)
(** * whatsapp.py *)
(* ===================================================================== *)

Module Whatsapp.
Import Py Re Os.

Definition JPEG_EXTS : list string := [".jpg"; ".jpeg"].

(** The tag numbers [piexif.ExifIFD.DateTimeOriginal],
    [piexif.ExifIFD.DateTimeDigitized] and [piexif.ImageIFD.DateTime]. *)
Definition DateTimeOriginal : Z := 36867.
Definition DateTimeDigitized : Z := 36868.
Definition DateTime : Z := 306.

(** ** EXIF helpers *)

Definition setdefault (k : string) (d : ExifDict) : ExifDict :=
  match d !! k with
  | Some _ => d
  | None => <[k := ∅]> d
  end.

Definition ensure_exif_dict (exif_dict : ExifDict) : ExifDict :=
  if decide (exif_dict = ∅)
  then <["0th" := ∅]> (<["Exif" := ∅]> (<["GPS" := ∅]> (<["1st" := ∅]> ∅)))
  else setdefault "1st" (setdefault "GPS" (setdefault "Exif"
         (setdefault "0th" exif_dict))).

(** Whitespace removed by [str.strip()]. *)
Definition is_space (c : ascii) : bool :=
  let n := nat_of_ascii c in
  ((9 <=? n)%nat && (n <=? 13)%nat) || ((28 <=? n)%nat && (n <=? 32)%nat).

Fixpoint lstrip (s : string) : string :=
  match s with
  | String c s' => if is_space c then lstrip s' else s
  | EmptyString => EmptyString
  end.

Fixpoint rstrip (s : string) : string :=
  match s with
  | String c s' =>
      match rstrip s' with
      | EmptyString => if is_space c then EmptyString else String c EmptyString
      | t => String c t
      end
  | EmptyString => EmptyString
  end.

Definition strip (s : string) : string := rstrip (lstrip s).

(** A missing IFD raises [KeyError] inside the [try], which gives [None]. *)
Definition exif_get_field (exif_dict : ExifDict) (ifd : string) (tag : Z)
  : option string :=
  match exif_dict !! ifd with
  | Some t =>
      let v := strip (default EmptyString (t !! tag)) in
      if truthy v then Some v else None
  | None => None
  end.

Definition exif_has_datetime_original (exif_dict : ExifDict) : bool :=
  bool_decide (is_Some (exif_get_field exif_dict "Exif" DateTimeOriginal)).

Definition dt_to_exif_string (dt : datetime) : string := strftime_exif dt.

(** [exif_dict[ifd][tag] = v]: [KeyError] when the IFD is missing. *)
Definition set_tag (ifd : string) (tag : Z) (v : string) (d : ExifDict)
  : outcome ExifDict :=
  match d !! ifd with
  | Some t => Ret (<[ifd := <[tag := v]> t]> d)
  | None => Raise KeyError
  end.

Definition set_exif_dates (exif_dict : ExifDict) (dt : datetime)
  : outcome ExifDict :=
  let s := dt_to_exif_string dt in
  d1 ← set_tag "Exif" DateTimeOriginal s exif_dict;
  d2 ← set_tag "Exif" DateTimeDigitized s d1;
  set_tag "0th" DateTime s d2.

(** ** Filename parsing *)

Definition digit : regex := Cls is_digit.
Definition one_of (chars : string) : regex := Cls (fun c => contains_char c chars).

(** The five patterns, in the order of the list below. *)

(* WhatsApp classic: IMG-YYYYMMDD-WA####.jpg, VID-YYYYMMDD-WA####.mp4 *)
Definition RX_WHATSAPP : regex :=
  Bol ⋅ Alt (Str "IMG") (Str "VID") ⋅ Chr "-" ⋅ Group "date" (Rep 8 digit)
      ⋅ Str "-WA" ⋅ Plus is_digit.

(* Google Camera: PXL_YYYYMMDD_HHMMSS.* *)
Definition RX_PXL : regex :=
  Bol ⋅ Str "PXL_" ⋅ Group "date" (Rep 8 digit) ⋅ Chr "_"
      ⋅ Group "time" (Rep 6 digit).

(* Samsung/LG style: YYYYMMDD_HHMMSS.* *)
Definition RX_COMPACT : regex :=
  Bol ⋅ Group "date" (Rep 8 digit) ⋅ one_of "_-" ⋅ Group "time" (Rep 6 digit).

(* iOS export-ish: YYYY-MM-DD HH.MM.SS or YYYY-MM-DD HH-MM-SS *)
Definition RX_EXPORT : regex :=
  Bol ⋅ Group "date" (Rep 4 digit ⋅ one_of "-_" ⋅ Rep 2 digit ⋅ one_of "-_"
                        ⋅ Rep 2 digit)
      ⋅ one_of " _T.-" ⋅ Group "time" (Rep 2 digit)
      ⋅ one_of ".-_:" ⋅ Group "min" (Rep 2 digit)
      ⋅ one_of ".-_:" ⋅ Group "sec" (Rep 2 digit).

(* Generic leading date: YYYYMMDD.* *)
Definition RX_LEADING : regex := Bol ⋅ Group "date" (Rep 8 digit).

Definition FILENAME_PATTERNS : list Pattern := [
  mkPattern "^(?:IMG|VID)-(?P<date>\d{8})-WA\d+" RX_WHATSAPP;
  mkPattern "^PXL_(?P<date>\d{8})_(?P<time>\d{6})" RX_PXL;
  mkPattern "^(?P<date>\d{8})[_-](?P<time>\d{6})" RX_COMPACT;
  mkPattern "^(?P<date>\d{4}[-_]\d{2}[-_]\d{2})[ _T.-](?P<time>\d{2})[.\-_:](?P<min>\d{2})[.\-_:](?P<sec>\d{2})"
            RX_EXPORT;
  mkPattern "^(?P<date>\d{8})" RX_LEADING
].

(** [gd.get(k)] and [k in gd] on a [groupdict]. *)
Definition gd_get (gd : gmap string (option string)) (k : string) : option string :=
  default None (gd !! k).

Definition gd_has (gd : gmap string (option string)) (k : string) : bool :=
  bool_decide (is_Some (gd !! k)).

(** One turn of the loop of [parse_datetime_from_filename]: [None] stands
    for [continue], [Some] for the [return] at the end of the body.  The
    assignments to [hh] have no effect on the result and are left out. *)
Definition try_pattern (pat : Pattern) (stem : string)
  : option (string * option string) :=
  match re_match (rx pat) stem with
  | None => None
  | Some m =>
      let gd := groupdict (rx pat) m in
      match gd_get gd "date" with
      | None => None
      | Some date_raw0 =>
          if negb (truthy date_raw0) then None else
          (* Normalize date to YYYYMMDD *)
          let date_raw :=
            if contains_char "-" date_raw0 || contains_char "_" date_raw0 then
              match re_split (fun c => contains_char c "-_") date_raw0 with
              | [y; mo; d] => y ++ mo ++ d
              | _ => date_raw0
              end
            else date_raw0 in
          let time_raw1 : option string :=
            if gd_has gd "time" && truthy_opt (gd_get gd "time")
            then gd_get gd "time"
            else None in
          let time_raw2 : option string :=
            if negb (startswith "^(" (pattern pat))
               && gd_has gd "min" && gd_has gd "sec"
               && truthy_opt (gd_get gd "min") && truthy_opt (gd_get gd "sec")
            then
              match gd_get gd "time", gd_get gd "min", gd_get gd "sec" with
              | Some t, Some mi, Some se =>
                  if truthy t then Some (t ++ mi ++ se) else time_raw1
              | _, _, _ => time_raw1
              end
            else time_raw1 in
          (* Validate lengths *)
          if negb (String.length date_raw =? 8)%nat then None else
          let time_raw :=
            match time_raw2 with
            | Some t => if negb (String.length t =? 6)%nat then None else Some t
            | None => None
            end in
          Some (date_raw, time_raw)
      end
  end.

Fixpoint parse_loop (pats : list Pattern) (stem : string)
  : option string * option string :=
  match pats with
  | [] => (None, None)
  | pat :: rest =>
      match try_pattern pat stem with
      | Some (date_raw, time_raw) => (Some date_raw, time_raw)
      | None => parse_loop rest stem
      end
  end.

Definition parse_datetime_from_filename (name : string)
  : option string * option string :=
  parse_loop FILENAME_PATTERNS (stem name).

Definition compose_datetime (date_raw : string) (time_raw : option string)
    (time_default : string) (mtime : datetime) : outcome datetime :=
  y ← int (slice 0 4 date_raw);
  mo ← int (slice 4 6 date_raw);
  d ← int (slice 6 8 date_raw);
  if truthy_opt time_raw then
    let t := default EmptyString time_raw in
    hh ← int (slice 0 2 t);
    mi ← int (slice 2 4 t);
    ss ← int (slice 4 6 t);
    datetime_new y mo d hh mi ss
  else if String.eqb time_default "keep-mtime" then
    datetime_new y mo d (hour mtime) (minute mtime) (second mtime)
  else if String.eqb time_default "noon" then
    datetime_new y mo d 12 0 0
  else (* "zero" *)
    datetime_new y mo d 0 0 0.

(** ** Core processing *)

(** [path.name]: the last component of a path. *)
Definition path_name (path : string) : string :=
  match rfind_sep path with
  | Some i => slice (S i) (String.length path) path
  | None => path
  end.

(** [dt.strftime("%Y-%m-%d %H:%M:%S")]. *)
Definition strftime_plain (t : datetime) : string :=
  pad 4 (year t) ++ "-" ++ pad 2 (month t) ++ "-" ++ pad 2 (day t) ++ " " ++
  pad 2 (hour t) ++ ":" ++ pad 2 (minute t) ++ ":" ++ pad 2 (second t).

(** The strings [process_file] returns, by their fields. *)
Inductive message : Type :=
| SHOW_META (path fs_modified : string) (dto dtd dt0 : option string)
| SKIP (path : string)
| DRY_RUN (src : string) (date : string) (path : string)
| UPDATED (src : string) (date : string) (path : string)
| ERROR (path : string) (e : exn).

(** The block "Decide source datetime" of [process_file]. *)
Definition decide_source (name : string) (from_filename : bool)
    (time_default : string) (orig_mtime : datetime) : outcome datetime :=
  dt_source ←
    (if from_filename then
       let '(date_raw, time_raw) := parse_datetime_from_filename name in
       match date_raw with
       | Some dr =>
           if truthy dr
           then dt ← compose_datetime dr time_raw time_default orig_mtime;
                Ret (Some dt)
           else Ret None
       | None => Ret None
       end
     else Ret None);
  match dt_source with
  | Some dt => Ret dt
  | None => (* fallback to mtime (original script behavior) *) Ret orig_mtime
  end.

Definition process_file (env : Env) (path : string)
    (dry_run show_meta from_filename : bool) (time_default : string)
    (force : bool) : M Files message :=
  st ← stat path;
  let orig_atime := atime st in
  let orig_mtime := mtime st in
  let fs_modified_str := strftime_plain orig_mtime in
  try_except
    (loaded ← try_except (piexif_load path) (fun _ => mret ∅);
     let exif_dict := ensure_exif_dict loaded in
     if show_meta then
       mret (SHOW_META path fs_modified_str
               (exif_get_field exif_dict "Exif" DateTimeOriginal)
               (exif_get_field exif_dict "Exif" DateTimeDigitized)
               (exif_get_field exif_dict "0th" DateTime))
     else
       let already_has := exif_has_datetime_original exif_dict in
       if already_has && negb force then mret (SKIP path)
       else
         dt_source ← lift (decide_source (path_name path) from_filename
                                          time_default orig_mtime);
         if dry_run then
           mret (DRY_RUN (if from_filename then "filename" else "mtime")
                         (dt_to_exif_string dt_source) path)
         else
           (* Write EXIF and restore file times *)
           exif_dict' ← lift (set_exif_dates exif_dict dt_source);
           piexif_dump_insert env exif_dict' path;;
           utime env path orig_atime orig_mtime;;
           mret (UPDATED (if from_filename then "filename" else "mtime")
                         (dt_to_exif_string dt_source) path))
    (fun e => mret (ERROR path e)).

End Whatsapp.

(* ===================================================================== *)
(** * script.py *)
(* ===================================================================== *)

Module Script.
Import Py Re Os.

(** The flags read from [sys.argv]. *)
Record Flags : Type := mkFlags {
  DRY_RUN : bool;
  DELETE_ORIGINALS : bool
}.

(** The counters of the [stats] dictionary, one field per key. *)
Record Stats : Type := mkStats {
  scanned : Z;
  photos_changed : Z;
  videos_changed : Z;
  skipped : Z;
  errors : Z
}.

Definition stats0 : Stats := mkStats 0 0 0 0 0.

Inductive key : Type :=
| Scanned | PhotosChanged | VideosChanged | Skipped | Errors.

(** [stats[k] += 1]. *)
Definition incr (k : key) (st : Stats) : Stats :=
  match k with
  | Scanned => mkStats (scanned st + 1) (photos_changed st) (videos_changed st) (skipped st) (errors st)
  | PhotosChanged => mkStats (scanned st) (photos_changed st + 1) (videos_changed st) (skipped st) (errors st)
  | VideosChanged => mkStats (scanned st) (photos_changed st) (videos_changed st + 1) (skipped st) (errors st)
  | Skipped => mkStats (scanned st) (photos_changed st) (videos_changed st) (skipped st + 1) (errors st)
  | Errors => mkStats (scanned st) (photos_changed st) (videos_changed st) (skipped st) (errors st + 1)
  end.

(** The state of a run: the file tree and the counters. *)
Record State : Type := mkState {
  fs : Files;
  stats : Stats
}.

(** A file-system call, run on the file tree of the state. *)
Definition on_fs {A} (m : M Files A) : M State A :=
  fun s => match m (fs s) with
           | Done a fs' => Done a (mkState fs' (stats s))
           | Fail e fs' => Fail e (mkState fs' (stats s))
           end.

Definition bump (k : key) : M State unit :=
  modify (fun s => mkState (fs s) (incr k (stats s))).

(** Regex: look for \YYYY\ in the full path. *)
Definition FOLDER_YEAR : regex :=
  Cls is_sep ⋅ Group "1" (Rep 4 (Cls is_digit)) ⋅ Ahead (Cls is_sep).

Definition get_best_file_time (path : string) : M State datetime :=
  created ← on_fs (getctime path);
  modified ← on_fs (getmtime path);
  let best_time := dt_min created modified in
  match re_search FOLDER_YEAR path with
  | Some m =>
      folder_year ← lift (int (default EmptyString (group "1" m)));
      (* If both times are newer than folder year -> fallback *)
      if year best_time >? folder_year
      then lift (datetime_new folder_year 12 31 23 59 59)
      else mret best_time
  | None => mret best_time
  end.

(** [piexif.ExifIFD.DateTimeOriginal]. *)
Definition DateTimeOriginal : Z := 36867.

Definition has_exif_datetime (path : string) : M State bool :=
  try_except
    (exif_dict ← on_fs (piexif_load path);
     match exif_dict !! "Exif" with
     | Some t => mret (bool_decide (is_Some (t !! DateTimeOriginal)))
     | None => raise KeyError
     end)
    (fun _ => mret false).

Definition set_exif_datetime (fl : Flags) (env : Env) (path : string)
    (dt : datetime) : M State unit :=
  let formatted := strftime_exif dt in
  if DRY_RUN fl then bump PhotosChanged
  else
    exif_dict ← on_fs (piexif_load path);
    match exif_dict !! "Exif" with
    | Some t =>
        on_fs (piexif_dump_insert env
                 (<["Exif" := <[DateTimeOriginal := formatted]> t]> exif_dict)
                 path);;
        bump PhotosChanged
    | None => raise KeyError
    end.

Definition xmp_template (formatted : string) : string :=
  "<?xpacket begin='' id='W5M0MpCehiHzreSzNTczkc9d'?>
<x:xmpmeta xmlns:x='adobe:ns:meta/' x:xmptk='Python-Sidecar-Generator'>
 <rdf:RDF xmlns:rdf='http://www.w3.org/1999/02/22-rdf-syntax-ns#'>
  <rdf:Description rdf:about=''
    xmlns:xmp='http://ns.adobe.com/xap/1.0/'>
   <xmp:CreateDate>" ++ formatted ++ "</xmp:CreateDate>
  </rdf:Description>
 </rdf:RDF>
</x:xmpmeta>
<?xpacket end='w'?>".

(** Write XMP sidecar with CreateDate for formats without EXIF. *)
Definition create_xmp_sidecar (fl : Flags) (env : Env) (path : string)
    (dt : datetime) : M State unit :=
  let sidecar_path := path ++ ".xmp" in
  let formatted := strftime_iso dt in
  if DRY_RUN fl then bump PhotosChanged
  else
    try_except
      (on_fs (write_text env sidecar_path (xmp_template formatted));;
       bump PhotosChanged)
      (fun _ => bump Errors).

Definition PHOTO_EXTS : list string := [".jpg"; ".jpeg"; ".tif"; ".tiff"].
Definition SIDECAR_EXTS : list string := [".png"; ".bmp"; ".gif"; ".webp"].
Definition VIDEO_EXTS : list string := [".mp4"; ".mov"; ".m4v"; ".3gp"; ".3g2"].

(** [ext in exts]. *)
Definition mem (ext : string) (exts : list string) : bool :=
  existsb (String.eqb ext) exts.

Definition process_photo (fl : Flags) (env : Env) (path : string) : M State unit :=
  let ext := lower (snd (splitext path)) in
  if negb (mem ext PHOTO_EXTS) then bump Skipped
  else
    has ← has_exif_datetime path;
    if negb has then
      chosen_dt ← get_best_file_time path;
      if DRY_RUN fl then bump PhotosChanged
      else
        try_except (set_exif_datetime fl env path chosen_dt)
                   (fun _ => bump Errors)
    else bump Skipped.

(** [if os.path.exists(tmpfile): os.remove(tmpfile)]. *)
Definition remove_if_exists (env : Env) (tmpfile : string) : M State unit :=
  present ← on_fs (exists_ tmpfile);
  if (present : bool) then on_fs (remove env tmpfile) else mret tt.

(** The name of the temp file of a remux: [f"{root}.tmp{ext}"]. *)
Definition tmpfile_of (path : string) : string :=
  let '(root, ext) := splitext path in root ++ ".tmp" ++ ext.

Definition probe_args (path : string) : list string := ["ffmpeg"; "-i"; path].

Definition remux_args (path formatted tmpfile : string) : list string :=
  ["ffmpeg"; "-i"; path; "-metadata"; "creation_time=" ++ formatted;
   "-codec"; "copy"; tmpfile; "-y"].

Definition process_video (fl : Flags) (env : Env) (path : string) : M State unit :=
  chosen_dt ← get_best_file_time path;
  let formatted := strftime_iso chosen_dt in
  let tmpfile := tmpfile_of path in
  (* Probe streams before doing anything *)
  probe ← on_fs (run_ffmpeg env (probe_args path) None);
  if negb (contains "Stream #" (snd probe)) then bump Skipped
  else if DRY_RUN fl then bump VideosChanged
  else
    try_except
      (result ← on_fs (run_ffmpeg env (remux_args path formatted tmpfile)
                                   (Some tmpfile));
       if fst result =? 0 then
         on_fs (replace env tmpfile path);;
         bump VideosChanged
       else
         bump Errors;;
         remove_if_exists env tmpfile)
      (fun _ =>
         bump Errors;;
         remove_if_exists env tmpfile).

Definition avi_output (path : string) : string := fst (splitext path) ++ ".mp4".

Definition avi_args (path formatted output_file : string) : list string :=
  ["ffmpeg"; "-i"; path;
   "-c:v"; "libx264"; "-crf"; "20"; "-preset"; "slow";
   "-vf"; "format=yuv420p";
   "-c:a"; "aac"; "-b:a"; "192k"; "-ac"; "2";
   "-movflags"; "+faststart";
   "-metadata"; "creation_time=" ++ formatted;
   output_file; "-y"].

(** Convert AVI to standards-compliant MP4 (yuv420p, H.264, AAC). *)
Definition process_avi (fl : Flags) (env : Env) (path : string) : M State bool :=
  chosen_dt ← get_best_file_time path;
  let formatted := strftime_iso chosen_dt in
  let output_file := avi_output path in
  if DRY_RUN fl then mret true
  else
    try_except
      (result ← on_fs (run_ffmpeg env (avi_args path formatted output_file)
                                   (Some output_file));
       if negb (fst result =? 0) then mret false
       else
         (if DELETE_ORIGINALS fl
          then try_except (on_fs (remove env path)) (fun _ => mret tt)
          else mret tt);;
         mret true)
      (fun _ => mret false).

(** The body of the loop of [main], for one file of the walk. *)
Definition process_path (fl : Flags) (env : Env) (path : string) : M State unit :=
  let ext := lower (snd (splitext path)) in
  bump Scanned;;
  if mem ext PHOTO_EXTS then process_photo fl env path
  else if mem ext SIDECAR_EXTS then
    chosen_dt ← get_best_file_time path;
    create_xmp_sidecar fl env path chosen_dt
  else if String.eqb ext ".avi" then
    process_avi fl env path;; mret tt
  else if mem ext VIDEO_EXTS then process_video fl env path
  else bump Skipped.

(** [main] over the files that [os.walk(ROOT_DIR)] yields, in order. *)
Fixpoint main (fl : Flags) (env : Env) (paths : list string) : M State unit :=
  match paths with
  | [] => mret tt
  | path :: rest => process_path fl env path;; main fl env rest
  end.

(** Relations on the state of a run. *)
Definition same_fs (s s' : State) : Prop := fs s' = fs s.
Definition same_stats (s s' : State) : Prop := stats s' = stats s.

(** The four outcome counters, all but [scanned]. *)
Definition outcomes (st : Stats) : Z * Z * Z * Z :=
  (photos_changed st, videos_changed st, skipped st, errors st).

Definition same_outcomes (s s' : State) : Prop :=
  outcomes (stats s') = outcomes (stats s).

End Script.

(* ===================================================================== *)
(** * whatsapp.py: reading an EXIF dictionary, and [main] *)
(* ===================================================================== *)

Module WhatsappMain.
Import Py Re Os Whatsapp.

(** The IFDs that [ensure_exif_dict] makes sure of. *)
Definition IFDS : list string := ["0th"; "Exif"; "GPS"; "1st"].

(** [exif_dict[ifd][tag]], when both keys are there. *)
Definition tag_of (d : ExifDict) (ifd : string) (tag : Z) : option string :=
  d !! ifd ≫= (.!! tag).

(** The three entries that [set_exif_dates] assigns. *)
Definition written (ifd : string) (tag : Z) : bool :=
  (String.eqb ifd "Exif" && ((tag =? DateTimeOriginal) || (tag =? DateTimeDigitized)))
  || (String.eqb ifd "0th" && (tag =? DateTime)).

(** [p.suffix] of [pathlib], on a final path component. *)
Definition suffix (name : string) : string :=
  match rfind "." name with
  | Some i =>
      if (0 <? i)%nat && (i <? String.length name - 1)%nat
      then slice i (String.length name) name
      else EmptyString
  | None => EmptyString
  end.

(** The options that [argparse] hands to the loop of [main]. *)
Record Args : Type := mkArgs {
  dry_run : bool;
  show_meta : bool;
  from_filename : bool;
  time_default : string;
  force : bool
}.

(** What [main] prints: the message of a file, or the note that the
    folder holds no JPEG. *)
Inductive line : Type :=
| Msg (m : message)
| NoJpegs.

(** The state of a run of [main]: the file tree and the lines printed so
    far. *)
Record Session : Type := mkSession {
  tree : Files;
  printed : list line
}.

Definition on_tree {A} (m : M Files A) : M Session A :=
  fun s => match m (tree s) with
           | Done a fs' => Done a (mkSession fs' (printed s))
           | Fail e fs' => Fail e (mkSession fs' (printed s))
           end.

Definition print (l : line) : M Session unit :=
  modify (fun s => mkSession (tree s) (printed s ++ [l])%list).

(** [p.is_file() and p.suffix.lower() in JPEG_EXTS]. *)
Definition is_jpeg (fs : Files) (p : string) : bool :=
  bool_decide (is_Some (fs !! p))
  && existsb (String.eqb (lower (suffix (path_name p)))) JPEG_EXTS.

(** [for p in paths: print(process_file(p, ...))]. *)
Fixpoint process_all (env : Env) (args : Args) (paths : list string)
  : M Session unit :=
  match paths with
  | [] => mret tt
  | p :: rest =>
      msg ← on_tree (process_file env p (dry_run args) (show_meta args)
                       (from_filename args) (time_default args) (force args));
      print (Msg msg);;
      process_all env args rest
  end.

(** [main] from the listing on: [entries] is what [folder.iterdir()] or
    [folder.rglob("*")] yields for an existing folder, [sorted] the order
    that [sorted] puts paths in. *)
Definition main (env : Env) (args : Args) (sorted : list string -> list string)
    (entries : list string) : M Session unit :=
  fun s =>
    let paths := List.filter (is_jpeg (tree s)) entries in
    match paths with
    | [] => print NoJpegs s
    | _ => process_all env args (sorted paths) s
    end.

End WhatsappMain.

(* ===================================================================== *)
(** * Sample files and collaborators *)
(* ===================================================================== *)

Module Fixtures.
Import Py Re Os Script.

Definition t2022 : datetime := mkDT 2022 3 1 9 30 0 0.
Definition t2023 : datetime := mkDT 2023 8 20 18 0 0 0.
Definition t_now : datetime := mkDT 2024 1 1 12 0 0 0.

Definition plain (bytes : string) : File :=
  mkFile t2023 t2022 t2023 None None bytes.

(** ffmpeg finds streams and every conversion succeeds, leaving [out]. *)
Definition ffmpeg_ok (out : File) (args : list string) : Run :=
  mkRun (Ret (0, "Stream #0:0: Video: h264")) (Some out).

Definition env_ok (out : File) : Env :=
  mkEnv t_now (fun _ _ => false) (ffmpeg_ok out).

(** The inspect-only call raises (ffmpeg is missing, or its diagnostic
    text cannot be decoded). *)
Definition env_probe_raises : Env :=
  mkEnv t_now (fun _ _ => false) (fun _ => mkRun (Raise ToolError) None).

(** Streams are found and ffmpeg succeeds, but [piexif.insert] is refused
    (a read-only file, or a TIFF, which piexif cannot rewrite). *)
Definition env_insert_refused : Env :=
  mkEnv t_now
        (fun c _ => match c with PiexifInsert => true | _ => false end)
        (ffmpeg_ok (plain "mp4")).

(** The remux fails with exit code 1 and leaves a partial temp file, which
    the operating system then refuses to delete (still open elsewhere, or
    read-only). *)
Definition env_cleanup_refused : Env :=
  mkEnv t_now
        (fun c _ => match c with OsRemove => true | _ => false end)
        (fun _ => mkRun (Ret (1, "Stream #0:0: Video: h264"))
                        (Some (plain "partial"))).

(** A video that carries a creation date in its container metadata. *)
Definition dated_video : File :=
  mkFile t2023 t2022 t2023 None (Some "2020-05-05T10:00:00") "ftyp".

(** A JPEG with an EXIF block without dates. *)
Definition undated_jpeg : File :=
  mkFile t2023 t2022 t2023 (Some {[ "Exif" := ∅ ]}) None "JFIF".

(** A JPEG whose EXIF block has [DateTimeOriginal]. *)
Definition dated_jpeg : File :=
  mkFile t2023 t2022 t2023
    (Some {[ "Exif" := {[ DateTimeOriginal := "2019:07:04 08:15:00" ]} ]})
    None "JFIF".

Definition APPLY : Flags := mkFlags false false.
Definition SIMULATE : Flags := mkFlags true false.

(** ** Statements under test *)

(** "The ModernVideo strategy detects a pre-existing creation date and
    returns Skipped without remuxing or modifying the file": the file tree
    stays as it was and [skipped] goes up by one. *)
Definition video_skips_when_dated (fl : Flags) (env : Env) (path : string)
    (s : State) : Prop :=
  forall f v,
    fs s !! path = Some f -> creation_time f = Some v ->
    process_video fl env path s
    = Done tt (mkState (fs s) (incr Skipped (stats s))).

(** "The counters are incremented in Simulate mode exactly as Apply mode
    would have incremented them for the same inputs": from the same state,
    both modes end with the same counters. *)
Definition simulate_counts_as_apply (del : bool) (env : Env) (path : string)
    (s : State) : Prop :=
  stats (final (process_path (mkFlags true del) env path s))
  = stats (final (process_path (mkFlags false del) env path s)).


(** "When the process fails, the original file's content is unchanged,
    any temp file created for the attempt is removed before returning, and
    the result is Failed (the error counter is incremented)". *)
Definition failed_remux_cleans_up (del : bool) (env : Env) (path : string)
    (s : State) : Prop :=
  forall dt rc err out,
    get_best_file_time path s = Done dt s ->
    ffmpeg env (remux_args path (strftime_iso dt) (tmpfile_of path))
      = mkRun (Ret (rc, err)) out ->
    rc <> 0 ->
    exists s', process_video (mkFlags false del) env path s = Done tt s' /\
               fs s' !! path = fs s !! path /\
               fs s' !! tmpfile_of path = None /\
               errors (stats s') = errors (stats s) + 1.


(** "For a filename IMG-YYYYMMDD-WA<digits>, with filename-based resolution
    and the zero policy, the resolved instant is the filename's date at
    00:00:00", for the eight digits the matcher returns. *)
Definition resolves_to_date_at_midnight (name : string) (mtime : datetime)
  : Prop :=
  forall date,
    Whatsapp.parse_datetime_from_filename name = (Some date, None) ->
    Whatsapp.decide_source name true "zero" mtime
    = Ret (mkDT (digits_value 0 (slice 0 4 date))
                (digits_value 0 (slice 4 6 date))
                (digits_value 0 (slice 6 8 date)) 0 0 0 0).

End Fixtures.

(* ===================================================================== *)
(** * Facts about strings and paths *)
(* ===================================================================== *)

Module Facts.
Import Py Re Os Whatsapp Script.

(** Splits [all_digits] of an explicit string into one fact per character. *)
Ltac digits_hyps H :=
  simpl in H; repeat rewrite andb_true_iff in H; destruct_and!.

Lemma substring_full (s : string) : substring 0 (String.length s) s = s.
Proof. induction s as [|c s IH]; simpl; [done|]. by rewrite IH. Qed.

(** Cutting a string at [n] and gluing the pieces back gives the string. *)
Lemma substring_split (s : string) (n : nat) :
  (n <= String.length s)%nat ->
  substring 0 n s ++ substring n (String.length s - n) s = s.
Proof.
  revert n. induction s as [|c s IH]; intros [|n] Hn; simpl in *; try lia.
  - done.
  - by rewrite substring_full.
  - change (String c (substring 0 n s ++ substring n (String.length s - n) s)
            = String c s).
    f_equal. apply IH. lia.
Qed.

Lemma app_empty_r (s : string) : s ++ "" = s.
Proof.
  induction s as [|c s IH]; [done|].
  change (String c (s ++ "") = String c s). by rewrite IH.
Qed.

Lemma rfind_lt c (s : string) i : rfind c s = Some i -> (i < String.length s)%nat.
Proof.
  revert i. induction s as [|a s IH]; intros i; simpl; [done|].
  destruct (rfind c s) as [j|].
  - intros [= <-]. specialize (IH j eq_refl). lia.
  - destruct (Ascii.eqb a c); [intros [= <-]; lia | done].
Qed.

(** [root + ext == p] for [root, ext = os.path.splitext(p)]. *)
Lemma splitext_app p : fst (splitext p) ++ snd (splitext p) = p.
Proof.
  unfold splitext. destruct (rfind "." p) as [dot|] eqn:Hdot.
  - destruct (_ && _); simpl.
    + unfold slice. rewrite Nat.sub_0_r. apply substring_split.
      apply rfind_lt in Hdot. lia.
    + apply app_empty_r.
  - apply app_empty_r.
Qed.

Lemma length_app (a b : string) :
  String.length (a ++ b) = (String.length a + String.length b)%nat.
Proof.
  induction a as [|c a IH]; [done|].
  change (S (String.length (a ++ b)) = S (String.length a + String.length b)).
  by rewrite IH.
Qed.

(** The temp file of a remux is never the file itself. *)
Lemma tmpfile_of_ne path : tmpfile_of path <> path.
Proof.
  unfold tmpfile_of. pose proof (splitext_app path) as H.
  destruct (splitext path) as [root ext]. simpl in H. intros Heq.
  apply (f_equal String.length) in Heq. rewrite <- H in Heq.
  rewrite !length_app in Heq. simpl in Heq. lia.
Qed.

Lemma lex_ltb_irrefl a : lex_ltb a a = false.
Proof.
  induction a as [|x a IH]; simpl; [done|].
  rewrite Z.ltb_irrefl, Z.eqb_refl, IH. done.
Qed.

Lemma lex_ltb_asym a b : lex_ltb a b = true -> lex_ltb b a = false.
Proof.
  revert b. induction a as [|x a IH]; intros [|y b]; simpl; try done.
  intros H. apply orb_true_iff in H as [H|H].
  - apply Z.ltb_lt in H.
    destruct (y <? x) eqn:E1; [lia|]. destruct (y =? x) eqn:E2; [lia|]. done.
  - apply andb_true_iff in H as [H1 H2]. apply Z.eqb_eq in H1. subst y.
    rewrite Z.ltb_irrefl, Z.eqb_refl. simpl. by apply IH.
Qed.

(** [min] picks one of its arguments, and neither argument is before it. *)
Lemma dt_min_earlier a b :
  (dt_min a b = a \/ dt_min a b = b) /\
  dt_ltb a (dt_min a b) = false /\ dt_ltb b (dt_min a b) = false.
Proof.
  unfold dt_min, dt_ltb. destruct (lex_ltb (dt_key b) (dt_key a)) eqn:E.
  - repeat split; [by right | by apply lex_ltb_asym | apply lex_ltb_irrefl].
  - repeat split; [by left | apply lex_ltb_irrefl | exact E].
Qed.

Lemma many_const p s g : many p s (fun _ => Some g) = Some g.
Proof.
  induction s as [|a s IH]; simpl; [done|].
  destruct (p a); [by rewrite IH | done].
Qed.

Lemma consumed_same s : consumed s s = "".
Proof. unfold consumed. rewrite Nat.sub_diag. by destruct s. Qed.

Lemma consumed_cons c s s' :
  (String.length s' <= String.length s)%nat ->
  consumed (String c s) s' = String c (consumed s s').
Proof.
  intros H. unfold consumed. simpl String.length.
  replace (S (String.length s) - String.length s')%nat
    with (S (String.length s - String.length s')) by lia.
  reflexivity.
Qed.

(** A digit is none of the other characters a pattern asks for. *)
Lemma digit_neq c x : is_digit c = true -> is_digit x = false -> Ascii.eqb c x = false.
Proof. intros Hc Hx. destruct (Ascii.eqb_spec c x); [congruence|done]. Qed.

Lemma digit_neq_sym c x : is_digit c = true -> is_digit x = false -> Ascii.eqb x c = false.
Proof. intros Hc Hx. destruct (Ascii.eqb_spec x c); [congruence|done]. Qed.

Lemma rfind_app_dot base ext :
  contains_char "." ext = false ->
  rfind "." (base ++ String "." ext) = Some (String.length base).
Proof.
  intros Hext.
  assert (rfind "." ext = None) as Hr.
  { induction ext as [|a ext IH]; simpl in *; [done|].
    apply orb_false_iff in Hext as [H1 H2]. rewrite (IH H2), H1. done. }
  induction base as [|c base IH].
  - change ("" ++ String "." ext) with (String "." ext). simpl. by rewrite Hr.
  - change (String c base ++ String "." ext) with (String c (base ++ String "." ext)).
    simpl. by rewrite IH.
Qed.

Lemma substring_app_prefix a b : substring 0 (String.length a) (a ++ b) = a.
Proof.
  induction a as [|c a IH].
  - simpl. by destruct b.
  - change (String c a ++ b) with (String c (a ++ b)). simpl. by rewrite IH.
Qed.

Lemma stem_ext base ext :
  base <> "" -> ext <> "" -> contains_char "." ext = false ->
  stem (base ++ String "." ext) = base.
Proof.
  intros Hb He Hd. unfold stem. rewrite rfind_app_dot by done.
  rewrite length_app. simpl String.length.
  destruct base as [|c base]; [done|]. destruct ext as [|e ext]; [done|].
  simpl String.length.
  replace ((0 <? S (String.length base))%nat) with true by (symmetry; apply Nat.ltb_lt; lia).
  replace ((S (String.length base) <? S (String.length base) + S (S (String.length ext)) - 1)%nat)
    with true by (symmetry; apply Nat.ltb_lt; lia).
  simpl andb. cbv iota. unfold slice. rewrite Nat.sub_0_r.
  apply (substring_app_prefix (String c base)).
Qed.

Lemma length8 (s : string) :
  String.length s = 8%nat ->
  exists c1 c2 c3 c4 c5 c6 c7 c8,
    s = String c1 (String c2 (String c3 (String c4 (String c5 (String c6
          (String c7 (String c8 ""))))))).
Proof.
  intros H. do 8 (destruct s as [|? s]; [discriminate H|]).
  destruct s; [|discriminate H]. by eexists _, _, _, _, _, _, _, _.
Qed.

Lemma length2 (s : string) :
  String.length s = 2%nat -> exists c1 c2, s = String c1 (String c2 "").
Proof.
  intros H. do 2 (destruct s as [|? s]; [discriminate H|]).
  destruct s; [|discriminate H]. by eexists _, _.
Qed.

Lemma length4 (s : string) :
  String.length s = 4%nat ->
  exists c1 c2 c3 c4, s = String c1 (String c2 (String c3 (String c4 ""))).
Proof.
  intros H. do 4 (destruct s as [|? s]; [discriminate H|]).
  destruct s; [|discriminate H]. by eexists _, _, _, _.
Qed.

Lemma digit_no_dash c : is_digit c = true -> Ascii.eqb c "-" = false.
Proof. intros H. by apply digit_neq. Qed.

Lemma digit_no_underscore c : is_digit c = true -> Ascii.eqb c "_" = false.
Proof. intros H. by apply digit_neq. Qed.

Lemma date_sep_cases c : contains_char c "-_" = true -> c = "-"%char \/ c = "_"%char.
Proof.
  cbn [contains_char]. intros H. apply orb_true_iff in H as [H|H].
  - apply Ascii.eqb_eq in H. by left.
  - apply orb_true_iff in H as [H|H]; [|done]. apply Ascii.eqb_eq in H. by right.
Qed.

Lemma digit_not_sep c : is_digit c = true -> contains_char c "-_" = false.
Proof.
  intros H. cbn [contains_char]. rewrite !(digit_neq_sym c) by done. reflexivity.
Qed.


Lemma groupdict_lookup r g k :
  groupdict r g !! k = if bool_decide (k ∈ names r) then Some (group k g) else None.
Proof.
  unfold groupdict. induction (names r) as [|n l IH]; cbn [foldr].
  - rewrite lookup_empty. case_bool_decide; [set_solver|done].
  - rewrite lookup_insert. destruct (decide (n = k)) as [->|Hne].
    + assert (k ∈ k :: l) as Hin by (apply elem_of_cons; by left).
      by rewrite (bool_decide_eq_true_2 _ Hin).
    + rewrite IH. destruct (decide (k ∈ l)) as [Hin|Hnin].
      * assert (k ∈ n :: l) as Hin' by (apply elem_of_cons; by right).
        by rewrite (bool_decide_eq_true_2 _ Hin), (bool_decide_eq_true_2 _ Hin').
      * assert (k ∉ n :: l) as Hnin'
          by (intros [?|?]%elem_of_cons; [congruence|done]).
        by rewrite (bool_decide_eq_false_2 _ Hnin), (bool_decide_eq_false_2 _ Hnin').
Qed.

Lemma gd_get_groupdict r g k :
  gd_get (groupdict r g) k = if bool_decide (k ∈ names r) then group k g else None.
Proof. unfold gd_get. rewrite groupdict_lookup. by destruct (bool_decide _). Qed.

Lemma gd_has_groupdict r g k :
  gd_has (groupdict r g) k = bool_decide (k ∈ names r).
Proof.
  unfold gd_has. rewrite groupdict_lookup. destruct (bool_decide (k ∈ names r)).
  - by rewrite bool_decide_eq_true_2.
  - rewrite bool_decide_eq_false_2; [done|]. by intros [? ?].
Qed.

Lemma app_assoc (a b c : string) : (a ++ b) ++ c = a ++ (b ++ c).
Proof.
  induction a as [|x a IH]; [done|].
  change (String x ((a ++ b) ++ c) = String x (a ++ (b ++ c))). by rewrite IH.
Qed.

(** [int] of a run of digits. *)
Lemma int_digits s : s <> "" -> all_digits s = true -> int s = Ret (digits_value 0 s).
Proof. intros Hs Hd. unfold int. destruct s; [done|]. by rewrite Hd. Qed.




End Facts.

(* ===================================================================== *)
(** * What the patterns match *)
(* ===================================================================== *)

Module Matcher.
Import Py Re Os Whatsapp Script Facts.

(** Runs a pattern on an explicit string, down to the tests on its
    characters. *)
Ltac run_re :=
  unfold re_match;
  cbn -[contains_char is_digit is_sep Ascii.eqb Nat.eqb String.length consumed];
  rewrite ?Nat.eqb_refl.

Ltac use_chars :=
  repeat match goal with
         | H : is_digit _ = _ |- _ => rewrite H
         | H : is_sep _ = _ |- _ => rewrite H
         | H : contains_char _ _ = _ |- _ => rewrite H
         end.

Ltac close_groups :=
  repeat (rewrite consumed_cons by (simpl; lia)); rewrite ?consumed_same.

Lemma try_pattern_no_match pat s :
  re_match (rx pat) s = None -> try_pattern pat s = None.
Proof. intros H. unfold try_pattern. by rewrite H. Qed.

(** ** The messaging-app convention *)

Lemma re_match_whatsapp date w wa :
  String.length date = 8%nat -> all_digits date = true -> is_digit w = true ->
  re_match RX_WHATSAPP ("IMG-" ++ date ++ "-WA" ++ String w wa)
  = Some [("date", date)].
Proof.
  intros Hlen Hd Hw.
  destruct (length8 _ Hlen) as (c1&c2&c3&c4&c5&c6&c7&c8&->). digits_hyps Hd.
  cbv [String.append]. unfold re_match, RX_WHATSAPP.
  simpl. rewrite Nat.eqb_refl.
  repeat match goal with H : is_digit _ = true |- _ => rewrite H; clear H end.
  rewrite many_const. close_groups. reflexivity.
Qed.

Lemma whatsapp_name_matches date wa :
  String.length date = 8%nat -> all_digits date = true ->
  wa <> "" -> all_digits wa = true ->
  parse_loop FILENAME_PATTERNS ("IMG-" ++ date ++ "-WA" ++ wa) = (Some date, None).
Proof.
  intros Hlen Hd Hwa Hwd.
  destruct wa as [|w wa]; [done|].
  simpl in Hwd. apply andb_true_iff in Hwd as [Hw Hwd].
  unfold FILENAME_PATTERNS, parse_loop, try_pattern.
  cbn [rx pattern].
  rewrite re_match_whatsapp by done.
  rewrite !gd_get_groupdict, !gd_has_groupdict.
  destruct (length8 _ Hlen) as (c1&c2&c3&c4&c5&c6&c7&c8&->). digits_hyps Hd.
  simpl.
  rewrite !digit_no_dash, !digit_no_underscore by done.
  reflexivity.
Qed.

Lemma whatsapp_name_resolves date wa ext mtime :
  String.length date = 8%nat -> all_digits date = true ->
  wa <> "" -> all_digits wa = true ->
  ext <> "" -> contains_char "." ext = false ->
  let y := digits_value 0 (slice 0 4 date) in
  let mo := digits_value 0 (slice 4 6 date) in
  let d := digits_value 0 (slice 6 8 date) in
  valid_date y mo d = true ->
  decide_source ("IMG-" ++ date ++ "-WA" ++ wa ++ "." ++ ext) true "zero" mtime
  = Ret (mkDT y mo d 0 0 0 0).
Proof.
  intros Hlen Hd Hwa Hwd Hext Hdot y mo d Hvalid.
  unfold decide_source, parse_datetime_from_filename.
  assert ("IMG-" ++ date ++ "-WA" ++ wa ++ "." ++ ext
          = ("IMG-" ++ date ++ "-WA" ++ wa) ++ String "." ext) as ->.
  { change ("." ++ ext) with (String "." ext).
    rewrite !app_assoc. reflexivity. }
  rewrite stem_ext by done.
  rewrite whatsapp_name_matches by done.
  destruct (length8 _ Hlen) as (c1&c2&c3&c4&c5&c6&c7&c8&->).
  digits_hyps Hd.
  unfold compose_datetime, mbind, outcome_bind, bind. simpl truthy. cbv iota.
  simpl truthy_opt. cbv iota.
  subst y mo d. unfold slice in *. simpl substring in *.
  rewrite !int_digits
    by (try done; cbn [all_digits];
        repeat match goal with H : is_digit _ = true |- _ => rewrite H end;
        reflexivity).
  change ("zero" =? "keep-mtime")%string with false.
  change ("zero" =? "noon")%string with false. cbv iota.
  unfold datetime_new. rewrite Hvalid. reflexivity.
Qed.

(** ** The export-tool convention *)

Section ExportTool.
Variables y1 y2 y3 y4 m1 m2 d1 d2 h1 h2 i1 i2 e1 e2 : ascii.
Variables s1 s2 s3 s4 s5 : ascii.
Hypothesis Hdigits :
  all_digits (String y1 (String y2 (String y3 (String y4 (String m1 (String m2
    (String d1 (String d2 (String h1 (String h2 (String i1 (String i2
    (String e1 (String e2 "")))))))))))))) = true.
Hypothesis H1 : contains_char s1 "-_" = true.
Hypothesis H2 : contains_char s2 "-_" = true.
Hypothesis H3 : contains_char s3 " _T.-" = true.
Hypothesis H4 : contains_char s4 ".-_:" = true.
Hypothesis H5 : contains_char s5 ".-_:" = true.

Let stem : string :=
  String y1 (String y2 (String y3 (String y4 (String s1 (String m1 (String m2
    (String s2 (String d1 (String d2 (String s3 (String h1 (String h2
    (String s4 (String i1 (String i2 (String s5 (String e1 (String e2
    "")))))))))))))))))).

Lemma export_tool_not_whatsapp :
  re_match RX_WHATSAPP stem = None.
Proof.
  digits_hyps Hdigits. subst stem. unfold RX_WHATSAPP. run_re.
  rewrite !(digit_neq y1) by done. reflexivity.
Qed.

Lemma export_tool_not_pxl :
  re_match RX_PXL stem = None.
Proof.
  digits_hyps Hdigits. subst stem. unfold RX_PXL. run_re.
  rewrite !(digit_neq y1) by done. reflexivity.
Qed.

Lemma export_tool_not_compact :
  re_match RX_COMPACT stem = None.
Proof.
  assert (is_digit s1 = false) as Hs1
    by (destruct (date_sep_cases _ H1) as [-> | ->]; reflexivity).
  digits_hyps Hdigits. subst stem. unfold RX_COMPACT, one_of. run_re.
  use_chars. reflexivity.
Qed.

Lemma export_tool_groups :
  re_match RX_EXPORT stem
  = Some [("date", String y1 (String y2 (String y3 (String y4 (String s1
                     (String m1 (String m2 (String s2 (String d1
                     (String d2 ""))))))))));
          ("time", String h1 (String h2 ""));
          ("min", String i1 (String i2 ""));
          ("sec", String e1 (String e2 ""))].
Proof.
  digits_hyps Hdigits. subst stem. unfold RX_EXPORT, one_of. run_re.
  use_chars. close_groups. reflexivity.
Qed.

Let date_raw0 : string :=
  String y1 (String y2 (String y3 (String y4 (String s1 (String m1 (String m2
    (String s2 (String d1 (String d2 ""))))))))).

Lemma export_tool_date_has_separator :
  contains_char "-" date_raw0 || contains_char "_" date_raw0 = true.
Proof.
  digits_hyps Hdigits. subst date_raw0.
  destruct (date_sep_cases _ H1) as [-> | ->];
    destruct (date_sep_cases _ H2) as [-> | ->];
    cbn [contains_char];
    repeat match goal with
           | H : is_digit ?c = true |- _ =>
               first [ rewrite (digit_no_dash c H)
                     | rewrite (digit_no_underscore c H) ]
           end;
    reflexivity.
Qed.

Lemma export_tool_date_parts :
  re_split (fun c => contains_char c "-_") date_raw0
  = [String y1 (String y2 (String y3 (String y4 "")));
     String m1 (String m2 ""); String d1 (String d2 "")].
Proof.
  digits_hyps Hdigits. subst date_raw0. unfold re_split.
  cbn [split_on]. rewrite H1, H2.
  repeat match goal with
         | H : is_digit ?c = true |- _ => rewrite (digit_not_sep c H)
         end.
  reflexivity.
Qed.
End ExportTool.

Lemma export_tool_name_matches yyyy mm dd hh mi ss s1 s2 s3 s4 s5 :
  String.length yyyy = 4%nat -> String.length mm = 2%nat ->
  String.length dd = 2%nat -> String.length hh = 2%nat ->
  String.length mi = 2%nat -> String.length ss = 2%nat ->
  all_digits (yyyy ++ mm ++ dd ++ hh ++ mi ++ ss) = true ->
  contains_char s1 "-_" = true -> contains_char s2 "-_" = true ->
  contains_char s3 " _T.-" = true ->
  contains_char s4 ".-_:" = true -> contains_char s5 ".-_:" = true ->
  parse_loop FILENAME_PATTERNS
    (yyyy ++ String s1 (mm ++ String s2 (dd ++ String s3 (hh ++ String s4
       (mi ++ String s5 ss)))))
  = (Some (yyyy ++ mm ++ dd), None).
Proof.
  intros Hy Hm Hd Hh Hi Hs Hdig H1 H2 H3 H4 H5.
  destruct (length4 _ Hy) as (y1&y2&y3&y4&->).
  destruct (length2 _ Hm) as (m1&m2&->). destruct (length2 _ Hd) as (d1&d2&->).
  destruct (length2 _ Hh) as (h1&h2&->). destruct (length2 _ Hi) as (i1&i2&->).
  destruct (length2 _ Hs) as (e1&e2&->). clear Hy Hm Hd Hh Hi Hs.
  cbv [String.append] in Hdig |- *.
  unfold FILENAME_PATTERNS, parse_loop.
  rewrite try_pattern_no_match by (by apply export_tool_not_whatsapp).
  rewrite try_pattern_no_match by (by apply export_tool_not_pxl).
  rewrite try_pattern_no_match by (by apply export_tool_not_compact).
  unfold try_pattern. cbn [rx pattern].
  erewrite export_tool_groups; [|eassumption..].
  rewrite !gd_get_groupdict, !gd_has_groupdict.
  repeat match goal with
         | |- context [bool_decide ?P] =>
             let b := eval vm_compute in (bool_decide P) in
             change (bool_decide P) with b
         end.
  repeat match goal with
         | |- context [group ?k ?g] =>
             let v := eval vm_compute in (group k g) in
             change (group k g) with v
         end.
  cbn -[contains_char is_digit Ascii.eqb re_split String.length].
  erewrite export_tool_date_has_separator; [|eassumption..].
  erewrite export_tool_date_parts; [|eassumption..].
  reflexivity.
Qed.

(** ** The folder-year pattern *)

(** The pattern has no anchor: the subject length plays no part. *)
Lemma folder_year_run_length n m s :
  run n FOLDER_YEAR s [] (fun _ g => Some g) = run m FOLDER_YEAR s [] (fun _ g => Some g).
Proof. reflexivity. Qed.

Lemma folder_year_search_length n m s :
  search_from n FOLDER_YEAR s = search_from m FOLDER_YEAR s.
Proof.
  induction s as [|a s IH]; [reflexivity|].
  cbn [search_from]. rewrite (folder_year_run_length n m), IH. reflexivity.
Qed.




End Matcher.

(* ===================================================================== *)
(** * Frame reasoning: what a computation leaves alone *)
(* ===================================================================== *)

Module Frame.
Import Py Re Os Script.

(** [preserves R] goes through the combinators of a run, for a reflexive
    and transitive [R]. *)
Section Preserves.
Context {S : Type} (R : S -> S -> Prop).
Context `{!Reflexive R, !Transitive R}.

Lemma preserves_ret {A} (a : A) : preserves R (mret a).
Proof. intros s. simpl. reflexivity. Qed.

Lemma preserves_raise {A} (e : exn) : preserves R (raise (A := A) e).
Proof. intros s. simpl. reflexivity. Qed.

Lemma preserves_lift {A} (o : outcome A) : preserves R (lift o).
Proof. intros s. unfold lift. destruct o; simpl; reflexivity. Qed.

Lemma preserves_bind {A B} (m : M S A) (f : A -> M S B) :
  preserves R m -> (forall a, preserves R (f a)) -> preserves R (m ≫= f).
Proof.
  intros Hm Hf s. unfold mbind, M_bind, bindM.
  specialize (Hm s). destruct (m s) as [a s'|e s']; simpl in *.
  - etransitivity; [exact Hm | apply Hf].
  - exact Hm.
Qed.

Lemma preserves_try {A} (m : M S A) (h : exn -> M S A) :
  preserves R m -> (forall e, preserves R (h e)) -> preserves R (try_except m h).
Proof.
  intros Hm Hh s. unfold try_except.
  specialize (Hm s). destruct (m s) as [a s'|e s']; simpl in *.
  - exact Hm.
  - etransitivity; [exact Hm | apply Hh].
Qed.
End Preserves.

#[export] Instance same_fs_refl : Reflexive same_fs.
Proof. intros s. reflexivity. Qed.
#[export] Instance same_fs_trans : Transitive same_fs.
Proof. intros a b c H1 H2. unfold same_fs in *. congruence. Qed.
#[export] Instance same_stats_refl : Reflexive same_stats.
Proof. intros s. reflexivity. Qed.
#[export] Instance same_stats_trans : Transitive same_stats.
Proof. intros a b c H1 H2. unfold same_stats in *. congruence. Qed.
#[export] Instance same_outcomes_refl : Reflexive same_outcomes.
Proof. intros s. reflexivity. Qed.
#[export] Instance same_outcomes_trans : Transitive same_outcomes.
Proof. intros a b c H1 H2. unfold same_outcomes in *. congruence. Qed.

(** A file-system call leaves the counters alone. *)
Lemma on_fs_same_stats {A} (m : M Files A) : preserves same_stats (on_fs m).
Proof. intros s. unfold on_fs. destruct (m (fs s)); reflexivity. Qed.

Lemma on_fs_same_outcomes {A} (m : M Files A) : preserves same_outcomes (on_fs m).
Proof. intros s. unfold on_fs. destruct (m (fs s)); reflexivity. Qed.

(** A call that leaves the file tree alone does so inside a run. *)
Lemma on_fs_same_fs {A} (m : M Files A) :
  preserves eq m -> preserves same_fs (on_fs m).
Proof.
  intros H s. specialize (H (fs s)). unfold on_fs, same_fs.
  destruct (m (fs s)); simpl in *; congruence.
Qed.

Lemma bump_same_fs k : preserves same_fs (bump k).
Proof. intros s. reflexivity. Qed.

Lemma bump_scanned_same_outcomes : preserves same_outcomes (bump Scanned).
Proof. intros s. reflexivity. Qed.

(** The read-only calls. *)
Lemma getctime_pure p : preserves eq (getctime p).
Proof. intros s. unfold getctime. destruct (s !! p); reflexivity. Qed.

Lemma getmtime_pure p : preserves eq (getmtime p).
Proof. intros s. unfold getmtime. destruct (s !! p); reflexivity. Qed.

Lemma stat_pure p : preserves eq (stat p).
Proof. intros s. unfold stat. destruct (s !! p); reflexivity. Qed.

Lemma exists_pure p : preserves eq (exists_ p).
Proof. intros s. reflexivity. Qed.

Lemma piexif_load_pure p : preserves eq (piexif_load p).
Proof.
  intros s. unfold piexif_load.
  destruct (s !! p) as [f|]; [destruct (exif f)|]; reflexivity.
Qed.

Lemma probe_pure env args : preserves eq (run_ffmpeg env args None).
Proof.
  intros s. unfold run_ffmpeg. simpl.
  destruct (completed (ffmpeg env args)); reflexivity.
Qed.

Create HintDb frame.
#[export] Hint Resolve on_fs_same_stats on_fs_same_outcomes on_fs_same_fs
  bump_same_fs bump_scanned_same_outcomes getctime_pure getmtime_pure
  stat_pure exists_pure piexif_load_pure probe_pure : frame.

(** Walks down a computation, one combinator at a time. *)
Ltac frame :=
  repeat (intros;
          first [ solve [auto with frame]
                | apply preserves_ret; tc_solve
                | apply preserves_raise; tc_solve
                | apply preserves_lift; tc_solve
                | apply preserves_bind; [tc_solve | |]
                | apply preserves_try; [tc_solve | |]
                | case_match ]).

(** [get_best_file_time] reads and computes: it changes nothing. *)
Lemma get_best_file_time_same_fs path : preserves same_fs (get_best_file_time path).
Proof. unfold get_best_file_time. frame. Qed.

Lemma get_best_file_time_same_stats path :
  preserves same_stats (get_best_file_time path).
Proof. unfold get_best_file_time. frame. Qed.

Lemma has_exif_datetime_same_fs path : preserves same_fs (has_exif_datetime path).
Proof. unfold has_exif_datetime. frame. Qed.

End Frame.

(* ===================================================================== *)
(** * The timestamp resolver of script.py *)
(* ===================================================================== *)

Module Resolver.
Import Py Re Os Script Fixtures Facts Matcher Frame.

(** Unfolds the monad of a run down to matches on results. *)
Ltac run_monad :=
  unfold mbind, M_bind, bindM, mret, M_ret, ret, raise, lift, try_except,
    on_fs, bump, modify in *.

(** The resolver ends in the state it started in. *)
Lemma get_best_file_time_final path s : final (get_best_file_time path s) = s.
Proof.
  pose proof (get_best_file_time_same_fs path s) as Hf.
  pose proof (get_best_file_time_same_stats path s) as Hs.
  unfold same_fs, same_stats in *.
  destruct (final (get_best_file_time path s)) as [f st], s as [f0 st0].
  simpl in *. congruence.
Qed.

Lemma get_best_file_time_missing path s :
  fs s !! path = None -> get_best_file_time path s = Fail OSError s.
Proof.
  intros H. unfold get_best_file_time, getctime. run_monad.
  rewrite H. destruct s; reflexivity.
Qed.

(** Without a folder-year segment the result is the earlier of the two
    file times. *)
Lemma get_best_file_time_no_hint path s f :
  fs s !! path = Some f ->
  re_search FOLDER_YEAR path = None ->
  get_best_file_time path s = Done (dt_min (ctime f) (mtime f)) s.
Proof.
  intros H Hre. unfold get_best_file_time, getctime, getmtime. run_monad.
  rewrite H. simpl. rewrite H. simpl. rewrite Hre. destruct s; reflexivity.
Qed.





End Resolver.

(* ===================================================================== *)
(** * Properties of the batch run of script.py *)
(* ===================================================================== *)

Module Batch.
Import Py Re Os Script Fixtures Facts Frame Resolver.

#[export] Hint Resolve get_best_file_time_same_fs get_best_file_time_same_stats
  has_exif_datetime_same_fs : frame.

Lemma process_avi_same_stats fl env path :
  preserves same_stats (process_avi fl env path).
Proof. unfold process_avi. frame. Qed.

(** C4 (the code breaks it): the outcome of an [.avi] file reaches no
    counter.  For every path with extension [.avi], in either mode and
    whatever ffmpeg does, the loop body of [main] adds one to [scanned] and
    leaves [photos_changed], [videos_changed], [skipped] and [errors] as
    they were: [main] drops the boolean that [process_avi] returns. *)
Theorem C4_avi_outcome_reaches_no_counter fl env path s :
  lower (snd (splitext path)) = ".avi" ->
  let s' := final (process_path fl env path s) in
  outcomes (stats s') = outcomes (stats s) /\
  scanned (stats s') = scanned (stats s) + 1.
Proof.
  intros Hext. cbv zeta. unfold process_path. rewrite Hext.
  change (mem ".avi" PHOTO_EXTS) with false.
  change (mem ".avi" SIDECAR_EXTS) with false.
  change (".avi" =? ".avi")%string with true. cbv iota.
  unfold mbind, M_bind, bindM, bump, modify. simpl.
  pose proof (process_avi_same_stats fl env path
                (mkState (fs s) (incr Scanned (stats s)))) as H.
  unfold same_stats in H.
  destruct (process_avi fl env path _) as [b s1|e s1]; simpl in *;
    rewrite H; split; reflexivity.
Qed.

Lemma C4_avi_witness :
  let s := mkState {[ "C:\siirto\clip.avi" := plain "RIFF" ]} stats0 in
  let s' := final (process_path APPLY (env_ok (plain "mp4")) "C:\siirto\clip.avi" s) in
  outcomes (stats s') = outcomes (stats s) /\
  scanned (stats s') = scanned (stats s) + 1.
Proof.
  apply (C4_avi_outcome_reaches_no_counter APPLY (env_ok (plain "mp4"))
           "C:\siirto\clip.avi"). reflexivity.
Defined.

(** The run over one converted [.avi] file: scanned, and counted nowhere,
    although the conversion succeeded and wrote [clip.mp4]. *)
Example avi_run :
  let s := mkState {[ "C:\siirto\clip.avi" := plain "RIFF" ]} stats0 in
  let r := main APPLY (env_ok (plain "mp4")) ["C:\siirto\clip.avi"] s in
  returned r = Some tt /\
  stats (final r) = mkStats 1 0 0 0 0 /\
  fs (final r) !! "C:\siirto\clip.mp4" = Some (plain "mp4").
Proof. vm_compute. repeat split. Qed.

(** An exception of the resolver or of the inspect-only ffmpeg call is
    outside every [try] of [process_video], and [main] has none. *)
Lemma main_cons fl env path rest s :
  main fl env (path :: rest) s =
  match process_path fl env path s with
  | Done _ s' => main fl env rest s'
  | Fail e s' => Fail e s'
  end.
Proof. reflexivity. Qed.

(** C3 (the code breaks it): a failure of the inspect-only ffmpeg call is
    not caught.  For a video file whose probe raises [e], [main] ends with
    [e] right there: the file has been counted as scanned and nowhere else,
    and the files after it are never processed. *)
Theorem C3_probe_failure_ends_the_run fl env path rest s f e :
  In (lower (snd (splitext path))) VIDEO_EXTS ->
  fs s !! path = Some f ->
  re_search FOLDER_YEAR path = None ->
  completed (ffmpeg env (probe_args path)) = Raise e ->
  main fl env (path :: rest) s = Fail e (mkState (fs s) (incr Scanned (stats s))).
Proof.
  intros Hext Hf Hre Hprobe. rewrite main_cons.
  assert (process_path fl env path s
          = Fail e (mkState (fs s) (incr Scanned (stats s)))) as ->; [|done].
  unfold process_path.
  assert (forall ext, In ext VIDEO_EXTS ->
            mem ext PHOTO_EXTS = false /\ mem ext SIDECAR_EXTS = false /\
            (ext =? ".avi")%string = false /\ mem ext VIDEO_EXTS = true) as Hcls.
  { intros ext Hin. simpl in Hin.
    repeat (destruct Hin as [<-|Hin]; [repeat split; reflexivity|]). done. }
  destruct (Hcls _ Hext) as (-> & -> & -> & ->). clear Hcls.
  unfold process_video. run_monad. simpl.
  rewrite (get_best_file_time_no_hint path _ f) by done. simpl.
  unfold run_ffmpeg. rewrite Hprobe. reflexivity.
Qed.

Lemma C3_probe_failure_witness :
  let s := mkState {[ "C:\siirto\a.mp4" := plain "ftyp";
                      "C:\siirto\b.jpg" := undated_jpeg ]} stats0 in
  main APPLY env_probe_raises ["C:\siirto\a.mp4"; "C:\siirto\b.jpg"] s
  = Fail ToolError (mkState (fs s) (incr Scanned (stats s))).
Proof.
  intros s.
  apply (C3_probe_failure_ends_the_run APPLY env_probe_raises
           "C:\siirto\a.mp4" ["C:\siirto\b.jpg"] s (plain "ftyp") ToolError).
  - simpl. auto.
  - vm_compute. reflexivity.
  - vm_compute. reflexivity.
  - reflexivity.
Defined.

(** The same run, evaluated: [b.jpg] is never looked at. *)
Example probe_failure_run :
  let s := mkState {[ "C:\siirto\a.mp4" := plain "ftyp";
                      "C:\siirto\b.jpg" := undated_jpeg ]} stats0 in
  let r := main APPLY env_probe_raises ["C:\siirto\a.mp4"; "C:\siirto\b.jpg"] s in
  returned r = None /\ stats (final r) = mkStats 1 0 0 0 0 /\
  fs (final r) !! "C:\siirto\b.jpg" = Some undated_jpeg.
Proof. vm_compute. repeat split. Qed.

(** The resolver is outside every [try] as well: for a file that needs a
    sidecar, an exception of [get_best_file_time] ends the run. *)
Lemma resolver_failure_ends_the_run fl env path rest s e :
  In (lower (snd (splitext path))) SIDECAR_EXTS ->
  get_best_file_time path (mkState (fs s) (incr Scanned (stats s)))
    = Fail e (mkState (fs s) (incr Scanned (stats s))) ->
  main fl env (path :: rest) s = Fail e (mkState (fs s) (incr Scanned (stats s))).
Proof.
  intros Hext Hdt. rewrite main_cons.
  assert (process_path fl env path s
          = Fail e (mkState (fs s) (incr Scanned (stats s)))) as ->; [|done].
  unfold process_path.
  assert (forall ext, In ext SIDECAR_EXTS ->
            mem ext PHOTO_EXTS = false /\ mem ext SIDECAR_EXTS = true) as Hcls.
  { intros ext Hin. simpl in Hin.
    repeat (destruct Hin as [<-|Hin]; [split; reflexivity|]). done. }
  destruct (Hcls _ Hext) as (-> & ->). clear Hcls.
  run_monad. rewrite Hdt. reflexivity.
Qed.

(** A picture in a folder named 0000: the cap would be in year 0, the
    [datetime] constructor raises [ValueError], and the run ends there. *)
Example folder_0000_run :
  let s := mkState {[ "C:\siirto\0000\a.png" := plain "PNG";
                      "C:\siirto\b.jpg" := undated_jpeg ]} stats0 in
  let r := main APPLY (env_ok (plain "mp4"))
             ["C:\siirto\0000\a.png"; "C:\siirto\b.jpg"] s in
  r = Fail ValueError (mkState (fs s) (mkStats 1 0 0 0 0)).
Proof. vm_compute. reflexivity. Qed.

(** Membership in an extension list, as the dispatch tests it. *)
Lemma mem_In ext exts : In ext exts -> mem ext exts = true.
Proof.
  unfold mem. intros H. apply existsb_exists. exists ext. split; [done|].
  apply String.eqb_refl.
Qed.

(** The Photo strategy skips a file that has [DateTimeOriginal]. *)
Lemma process_photo_skips fl env path s f d t v :
  In (lower (snd (splitext path))) PHOTO_EXTS ->
  fs s !! path = Some f -> exif f = Some d ->
  d !! "Exif" = Some t -> t !! DateTimeOriginal = Some v ->
  process_photo fl env path s = Done tt (mkState (fs s) (incr Skipped (stats s))).
Proof.
  intros Hext Hf Hd Ht Hv. unfold process_photo.
  rewrite (mem_In _ _ Hext). simpl.
  unfold has_exif_datetime, piexif_load. run_monad.
  rewrite Hf, Hd. simpl. rewrite Ht, Hv. simpl. reflexivity.
Qed.

(** The ModernVideo strategy in Apply mode, when the probe finds a stream
    and the remux succeeds: the file is replaced by what ffmpeg wrote. *)
Lemma process_video_remuxes del env path s dt rc err err2 out :
  get_best_file_time path s = Done dt s ->
  completed (ffmpeg env (probe_args path)) = Ret (rc, err) ->
  contains "Stream #" err = true ->
  ffmpeg env (remux_args path (strftime_iso dt) (tmpfile_of path))
    = mkRun (Ret (0, err2)) (Some out) ->
  raises env OsReplace path = false ->
  process_video (mkFlags false del) env path s
  = Done tt (mkState (<[path := out]> (delete (tmpfile_of path) (fs s)))
                     (incr VideosChanged (stats s))).
Proof.
  intros Hdt Hprobe Hstream Hremux Hrep. unfold process_video. run_monad.
  rewrite Hdt. unfold run_ffmpeg at 1. rewrite Hprobe. simpl.
  rewrite Hstream. simpl. unfold run_ffmpeg. rewrite Hremux. simpl.
  unfold replace. rewrite lookup_insert_eq, Hrep. simpl.
  rewrite delete_insert_eq. reflexivity.
Qed.

(** C1 (amended): the Photo strategy skips a file whose EXIF block already
    has [DateTimeOriginal], in either mode and without touching the file
    tree; the ModernVideo strategy makes no check for an existing date: in
    Apply mode a file with a valid stream whose remux succeeds is replaced
    by the remuxed file and counted in [videos_changed], whatever creation
    date it carried. *)
Theorem C1_photo_skips_video_remuxes :
  (forall fl env path s f d t v,
     In (lower (snd (splitext path))) PHOTO_EXTS ->
     fs s !! path = Some f -> exif f = Some d ->
     d !! "Exif" = Some t -> t !! DateTimeOriginal = Some v ->
     process_photo fl env path s
     = Done tt (mkState (fs s) (incr Skipped (stats s)))) /\
  (forall del env path s f dt rc err err2 out,
     fs s !! path = Some f ->
     get_best_file_time path s = Done dt s ->
     completed (ffmpeg env (probe_args path)) = Ret (rc, err) ->
     contains "Stream #" err = true ->
     ffmpeg env (remux_args path (strftime_iso dt) (tmpfile_of path))
       = mkRun (Ret (0, err2)) (Some out) ->
     raises env OsReplace path = false ->
     process_video (mkFlags false del) env path s
     = Done tt (mkState (<[path := out]> (delete (tmpfile_of path) (fs s)))
                        (incr VideosChanged (stats s)))).
Proof.
  split.
  - intros. eapply process_photo_skips; eauto.
  - intros. eapply process_video_remuxes; eauto.
Qed.

Lemma C1_witness :
  let env := env_ok (plain "mp4") in
  let sp := mkState {[ "C:\siirto\p.jpg" := dated_jpeg ]} stats0 in
  let sv := mkState {[ "C:\siirto\a.mp4" := dated_video ]} stats0 in
  process_photo APPLY env "C:\siirto\p.jpg" sp
  = Done tt (mkState (fs sp) (incr Skipped (stats sp))) /\
  process_video APPLY env "C:\siirto\a.mp4" sv
  = Done tt (mkState (<["C:\siirto\a.mp4" := plain "mp4"]>
                        (delete (tmpfile_of "C:\siirto\a.mp4") (fs sv)))
                     (incr VideosChanged (stats sv))).
Proof.
  intros env sp sv. split.
  - apply (proj1 C1_photo_skips_video_remuxes APPLY env "C:\siirto\p.jpg" sp
             dated_jpeg {[ "Exif" := {[ DateTimeOriginal := "2019:07:04 08:15:00" ]} ]}
             {[ DateTimeOriginal := "2019:07:04 08:15:00" ]}
             "2019:07:04 08:15:00").
    + simpl. auto.
    + vm_compute. reflexivity.
    + reflexivity.
    + vm_compute. reflexivity.
    + vm_compute. reflexivity.
  - apply (proj2 C1_photo_skips_video_remuxes false env "C:\siirto\a.mp4" sv
             dated_video t2022 0 "Stream #0:0: Video: h264"
             "Stream #0:0: Video: h264" (plain "mp4")).
    + vm_compute. reflexivity.
    + vm_compute. reflexivity.
    + reflexivity.
    + reflexivity.
    + reflexivity.
    + reflexivity.
Defined.

(** C1, as stated, fails for videos: a dated [.mp4] with a valid stream is
    remuxed and counted as changed, not skipped. *)
Lemma C1_dated_video_is_remuxed :
  ~ video_skips_when_dated APPLY (env_ok (plain "mp4")) "C:\siirto\a.mp4"
      (mkState {[ "C:\siirto\a.mp4" := dated_video ]} stats0).
Proof.
  intros H.
  specialize (H dated_video "2020-05-05T10:00:00" eq_refl eq_refl).
  vm_compute in H. discriminate H.
Qed.

(** ** Simulate mode *)

Lemma simulate_photo del env path :
  preserves same_fs (process_photo (mkFlags true del) env path).
Proof. unfold process_photo. simpl. frame. Qed.

Lemma simulate_sidecar del env path dt :
  preserves same_fs (create_xmp_sidecar (mkFlags true del) env path dt).
Proof. unfold create_xmp_sidecar. simpl. frame. Qed.

Lemma simulate_avi del env path :
  preserves same_fs (process_avi (mkFlags true del) env path).
Proof. unfold process_avi. simpl. frame. Qed.

Lemma simulate_video del env path :
  preserves same_fs (process_video (mkFlags true del) env path).
Proof. unfold process_video. simpl. frame. Qed.

#[export] Hint Resolve simulate_photo simulate_sidecar simulate_avi
  simulate_video : frame.

Lemma simulate_path del env path :
  preserves same_fs (process_path (mkFlags true del) env path).
Proof. unfold process_path. frame. Qed.

(** A whole run in Simulate mode leaves the file tree as it was, also when
    an exception ends it. *)
Lemma simulate_main del env paths :
  preserves same_fs (main (mkFlags true del) env paths).
Proof.
  induction paths as [|p rest IH]; simpl.
  - frame.
  - apply preserves_bind; [tc_solve | apply simulate_path | intros; apply IH].
Qed.

(** Whenever Apply mode gets through a file without raising and without
    counting an error, Simulate mode counts the file the same way. *)
Lemma simulate_counts_like_clean_apply del env path s sa :
  process_path (mkFlags false del) env path s = Done tt sa ->
  errors (stats sa) = errors (stats s) ->
  exists sd, process_path (mkFlags true del) env path s = Done tt sd /\
             stats sd = stats sa.
Proof.
  unfold process_path, process_photo, process_video, process_avi,
    create_xmp_sidecar, set_exif_datetime, has_exif_datetime, remove_if_exists,
    get_best_file_time, getctime, getmtime, piexif_load, piexif_dump_insert,
    run_ffmpeg, replace, remove, exists_, write_text.
  run_monad. cbn [DRY_RUN DELETE_ORIGINALS].
  intros H He. destruct s as [f0 st0]. simpl in *.
  repeat (case_match; simplify_eq/=; try done; try lia; eauto).
Qed.

(** C7 (amended): in Simulate mode a run creates, changes and deletes no
    file; and for each file, from the same state, Simulate mode ends with
    the counters of Apply mode whenever Apply mode itself gets through the
    file without raising and without counting an error. *)
Theorem C7_simulate_mutates_nothing_counts_like_clean_apply :
  (forall del env paths s,
     fs (final (main (mkFlags true del) env paths s)) = fs s) /\
  (forall del env path s sa,
     process_path (mkFlags false del) env path s = Done tt sa ->
     errors (stats sa) = errors (stats s) ->
     exists sd, process_path (mkFlags true del) env path s = Done tt sd /\
                stats sd = stats sa /\ fs sd = fs s).
Proof.
  split.
  - intros. apply simulate_main.
  - intros del env path s sa Ha He.
    destruct (simulate_counts_like_clean_apply _ _ _ _ _ Ha He) as (sd & Hd & Hs).
    exists sd. repeat split; [done..|].
    pose proof (simulate_path del env path s) as Hfs.
    unfold same_fs in Hfs. rewrite Hd in Hfs. exact Hfs.
Qed.

Lemma C7_witness :
  let env := env_ok (plain "mp4") in
  let s := mkState {[ "C:\siirto\a.mp4" := plain "ftyp";
                      "C:\siirto\p.jpg" := undated_jpeg ]} stats0 in
  fs (final (main SIMULATE env ["C:\siirto\a.mp4"; "C:\siirto\p.jpg"] s)) = fs s /\
  exists sd, process_path SIMULATE env "C:\siirto\a.mp4" s = Done tt sd /\
             stats sd = mkStats 1 0 1 0 0 /\ fs sd = fs s.
Proof.
  intros env s. split.
  - apply (proj1 C7_simulate_mutates_nothing_counts_like_clean_apply).
  - apply (proj2 C7_simulate_mutates_nothing_counts_like_clean_apply false env
             "C:\siirto\a.mp4" s
             (mkState (<["C:\siirto\a.mp4" := plain "mp4"]>
                         (delete (tmpfile_of "C:\siirto\a.mp4") (fs s)))
                      (mkStats 1 0 1 0 0))).
    + vm_compute. reflexivity.
    + reflexivity.
Defined.

(** C7, as stated, fails where the write of Apply mode fails: for a JPEG
    without dates whose [piexif.insert] is refused, Simulate mode counts a
    changed photo and Apply mode counts an error. *)
Lemma C7_refused_write_counts_differ :
  ~ simulate_counts_as_apply false env_insert_refused "C:\siirto\p.jpg"
      (mkState {[ "C:\siirto\p.jpg" := undated_jpeg ]} stats0).
Proof. unfold simulate_counts_as_apply. vm_compute. discriminate. Qed.

(** ** The remux protocol of [process_video] *)

(** A failed remux whose temp file cannot be deleted: the error is counted
    twice and the second [os.remove], in the handler, raises out of
    [process_video]. *)
Lemma process_video_cleanup_refused del env path s dt rc err rc2 err2 part :
  get_best_file_time path s = Done dt s ->
  completed (ffmpeg env (probe_args path)) = Ret (rc, err) ->
  contains "Stream #" err = true ->
  ffmpeg env (remux_args path (strftime_iso dt) (tmpfile_of path))
    = mkRun (Ret (rc2, err2)) (Some part) ->
  rc2 <> 0 ->
  raises env OsRemove (tmpfile_of path) = true ->
  process_video (mkFlags false del) env path s
  = Fail OSError (mkState (<[tmpfile_of path := part]> (fs s))
                          (incr Errors (incr Errors (stats s)))).
Proof.
  intros Hdt Hprobe Hstream Hremux Hrc Hrm. unfold process_video, remove_if_exists. run_monad.
  rewrite Hdt. unfold run_ffmpeg at 1. rewrite Hprobe. simpl.
  rewrite Hstream. simpl. unfold run_ffmpeg. rewrite Hremux. simpl.
  destruct (rc2 =? 0) eqn:E; [lia|]. simpl.
  unfold exists_, remove. simpl.
  repeat (rewrite ?lookup_insert_eq, ?Hrm; simpl). reflexivity.
Qed.

(** A failed remux whose temp file can be deleted, or was never written. *)
Lemma process_video_failure_cleans_up del env path s dt rc err rc2 err2 out :
  get_best_file_time path s = Done dt s ->
  completed (ffmpeg env (probe_args path)) = Ret (rc, err) ->
  contains "Stream #" err = true ->
  ffmpeg env (remux_args path (strftime_iso dt) (tmpfile_of path))
    = mkRun (Ret (rc2, err2)) out ->
  rc2 <> 0 ->
  raises env OsRemove (tmpfile_of path) = false ->
  process_video (mkFlags false del) env path s
  = Done tt (mkState (delete (tmpfile_of path) (fs s)) (incr Errors (stats s))).
Proof.
  intros Hdt Hprobe Hstream Hremux Hrc Hrm. unfold process_video, remove_if_exists. run_monad.
  rewrite Hdt. unfold run_ffmpeg at 1. rewrite Hprobe. simpl.
  rewrite Hstream. simpl. unfold run_ffmpeg. rewrite Hremux. simpl.
  destruct (rc2 =? 0) eqn:E; [lia|]. simpl.
  unfold exists_, remove. simpl.
  destruct out as [part|]; simpl.
  - repeat (rewrite ?lookup_insert_eq, ?Hrm; simpl).
    by rewrite delete_insert_eq.
  - destruct (fs s !! tmpfile_of path) eqn:Hl; simpl.
    + repeat (rewrite ?Hl, ?Hrm; simpl). done.
    + rewrite delete_id by done. done.
Qed.

(** The original is replaced only after a remux that exited with code 0. *)
Lemma process_video_original fl env path s :
  let s' := final (process_video fl env path s) in
  fs s' !! path = fs s !! path \/
  (DRY_RUN fl = false /\
   exists dt err,
     get_best_file_time path s = Done dt s /\
     completed (ffmpeg env (remux_args path (strftime_iso dt) (tmpfile_of path)))
       = Ret (0, err)).
Proof.
  pose proof (tmpfile_of_ne path) as Hne.
  pose proof (get_best_file_time_final path s) as Hg.
  unfold process_video, remove_if_exists, run_ffmpeg, replace, remove, exists_.
  run_monad.
  destruct (get_best_file_time path s) as [dt sg|e sg] eqn:Hgb;
    simpl in Hg; subst sg; simpl; [|by left].
  destruct s as [f0 st0]. simpl in *.
  repeat (case_match; simplify_eq/=; try (by left);
          try (left; rewrite ?lookup_insert_ne, ?lookup_delete_ne,
                 ?lookup_insert_ne by done; done)).
  all: right; split; [done|]; exists dt;
    match goal with
    | H : completed _ = Ret ?a, E : (fst ?a =? 0) = true |- _ =>
        destruct a as [rc0 err0]; simpl in E; apply Z.eqb_eq in E; subst rc0;
        exists err0; split; [done | exact H]
    end.
Qed.

(** After a failed remux the original is as it was and the error counter
    has gone up. *)
Lemma process_video_failure_counted del env path s dt rc err rc2 err2 out :
  get_best_file_time path s = Done dt s ->
  completed (ffmpeg env (probe_args path)) = Ret (rc, err) ->
  contains "Stream #" err = true ->
  ffmpeg env (remux_args path (strftime_iso dt) (tmpfile_of path))
    = mkRun (Ret (rc2, err2)) out ->
  rc2 <> 0 ->
  let s' := final (process_video (mkFlags false del) env path s) in
  fs s' !! path = fs s !! path /\
  errors (stats s) + 1 <= errors (stats s') /\
  videos_changed (stats s') = videos_changed (stats s).
Proof.
  intros Hdt Hprobe Hstream Hremux Hrc s'.
  assert (fs s' !! path = fs s !! path) as Hsame.
  { destruct (process_video_original (mkFlags false del) env path s)
      as [H|(_ & dt' & err' & Hdt' & Hc)]; [exact H|].
    rewrite Hdt in Hdt'. simplify_eq. rewrite Hremux in Hc. simpl in Hc.
    simplify_eq. }
  split; [exact Hsame|]. subst s'.
  unfold process_video, remove_if_exists, run_ffmpeg, replace, remove, exists_.
  run_monad. rewrite Hdt. simpl. rewrite Hprobe. simpl. rewrite Hstream. simpl.
  rewrite Hremux. simpl.
  destruct (rc2 =? 0) eqn:E; [lia|].
  destruct s as [f0 st0]. simpl in *.
  repeat (case_match; simplify_eq/=; try done; try lia).
Qed.

(** C8 (amended): the original file is replaced only after a remux that
    exited with code 0.  When the remux exits with another code, the
    original is as it was and the error counter has gone up; and when the
    operating system does not refuse the removal of the temp file,
    [process_video] returns with no temp file left, whether ffmpeg wrote
    one or an older one was lying there, and with the error counter, and no
    other counter, exactly one higher. *)
Theorem C8_remux_atomicity :
  (forall fl env path s,
     let s' := final (process_video fl env path s) in
     fs s' !! path = fs s !! path \/
     (DRY_RUN fl = false /\
      exists dt err,
        get_best_file_time path s = Done dt s /\
        completed (ffmpeg env (remux_args path (strftime_iso dt)
                                          (tmpfile_of path))) = Ret (0, err))) /\
  (forall del env path s dt rc err rc2 err2 out,
     get_best_file_time path s = Done dt s ->
     completed (ffmpeg env (probe_args path)) = Ret (rc, err) ->
     contains "Stream #" err = true ->
     ffmpeg env (remux_args path (strftime_iso dt) (tmpfile_of path))
       = mkRun (Ret (rc2, err2)) out ->
     rc2 <> 0 ->
     let r := process_video (mkFlags false del) env path s in
     fs (final r) !! path = fs s !! path /\
     errors (stats s) + 1 <= errors (stats (final r)) /\
     (raises env OsRemove (tmpfile_of path) = false ->
      exists s',
        r = Done tt s' /\
        fs s' !! tmpfile_of path = None /\
        stats s' = incr Errors (stats s))).
Proof.
  split.
  - intros. apply process_video_original.
  - intros del env path s dt rc err rc2 err2 out Hdt Hprobe Hstream Hremux Hrc r.
    destruct (process_video_failure_counted del _ _ _ _ _ _ _ _ _
                Hdt Hprobe Hstream Hremux Hrc) as (H1 & H2 & _).
    repeat split; [exact H1 | exact H2 |].
    intros Hrm. eexists. split.
    + eapply process_video_failure_cleans_up; eauto.
    + simpl. by rewrite lookup_delete_eq.
Qed.

Lemma C8_witness :
  let env := mkEnv t_now (fun _ _ => false)
               (fun _ => mkRun (Ret (1, "Stream #0:0: Video: h264"))
                               (Some (plain "partial"))) in
  let s := mkState {[ "C:\siirto\a.mp4" := plain "ftyp" ]} stats0 in
  let r := process_video APPLY env "C:\siirto\a.mp4" s in
  fs (final r) !! "C:\siirto\a.mp4" = fs s !! "C:\siirto\a.mp4" /\
  errors (stats s) + 1 <= errors (stats (final r)) /\
  exists s',
    r = Done tt s' /\
    fs s' !! tmpfile_of "C:\siirto\a.mp4" = None /\
    stats s' = incr Errors (stats s).
Proof.
  intros env s r.
  destruct (proj2 C8_remux_atomicity false env "C:\siirto\a.mp4" s t2022
              1 "Stream #0:0: Video: h264" 1 "Stream #0:0: Video: h264"
              (Some (plain "partial")))
    as (H1 & H2 & H3).
  - vm_compute. reflexivity.
  - reflexivity.
  - reflexivity.
  - reflexivity.
  - lia.
  - split; [exact H1 | split; [exact H2 | apply H3; reflexivity]].
Defined.

(** C8, as stated, fails when the temp file cannot be deleted:
    [process_video] does not return, and the temp file stays. *)
Lemma C8_refused_cleanup_escapes :
  ~ failed_remux_cleans_up false env_cleanup_refused "C:\siirto\a.mp4"
      (mkState {[ "C:\siirto\a.mp4" := plain "ftyp" ]} stats0).
Proof.
  intros H.
  destruct (H t2022 1 "Stream #0:0: Video: h264" (Some (plain "partial")))
    as (s' & Hr & _); [vm_compute; reflexivity | reflexivity | lia |].
  vm_compute in Hr. discriminate Hr.
Qed.

(** The same run, evaluated: two errors for one file, the partial temp file
    still there, the original untouched. *)
Example refused_cleanup_run :
  let s := mkState {[ "C:\siirto\a.mp4" := plain "ftyp" ]} stats0 in
  let r := process_video APPLY env_cleanup_refused "C:\siirto\a.mp4" s in
  returned r = None /\
  errors (stats (final r)) = 2 /\
  fs (final r) !! tmpfile_of "C:\siirto\a.mp4" = Some (plain "partial") /\
  fs (final r) !! "C:\siirto\a.mp4" = Some (plain "ftyp").
Proof. vm_compute. repeat split. Qed.

End Batch.

(* ===================================================================== *)
(** * Properties of whatsapp.py, and the two fallbacks side by side *)
(* ===================================================================== *)

Module Jpeg.
Import Py Re Os Script Fixtures Facts Matcher Frame Resolver Whatsapp.




(** ** The fallback instant *)

Lemma decide_source_mtime name time_default mtime :
  decide_source name false time_default mtime = Ret mtime.
Proof. reflexivity. Qed.


(** The resolver of script.py returns the earlier file time, or the cap
    that replaces it. *)
Lemma get_best_file_time_min_or_cap path s f dt :
  fs s !! path = Some f ->
  get_best_file_time path s = Done dt s ->
  dt = dt_min (ctime f) (mtime f) \/
  exists y, year (dt_min (ctime f) (mtime f)) > y /\
            dt = mkDT y 12 31 23 59 59 0.
Proof.
  intros Hf. unfold get_best_file_time, getctime, getmtime, datetime_new.
  run_monad. rewrite Hf. simpl. rewrite Hf. simpl.
  intros H. repeat (case_match; simplify_eq/=); try (by left).
  right. eexists. split; [|reflexivity]. lia.
Qed.




(** ** Dates from file names *)

(** C9 (amended): for a file name IMG-YYYYMMDD-WA<digits> with an
    extension, whose eight digits are a calendar date, the matcher returns
    exactly these digits and no time, and the resolution from the file name
    with the [zero] policy gives that date at 00:00:00, whatever the
    modified time of the file. *)
Theorem C9_whatsapp_name_resolves_to_its_date date wa ext mtime :
  String.length date = 8%nat -> all_digits date = true ->
  wa <> "" -> all_digits wa = true ->
  ext <> "" -> contains_char "." ext = false ->
  let name := "IMG-" ++ date ++ "-WA" ++ wa ++ "." ++ ext in
  let y := digits_value 0 (slice 0 4 date) in
  let mo := digits_value 0 (slice 4 6 date) in
  let d := digits_value 0 (slice 6 8 date) in
  valid_date y mo d = true ->
  parse_datetime_from_filename name = (Some date, None) /\
  decide_source name true "zero" mtime = Ret (mkDT y mo d 0 0 0 0).
Proof.
  intros Hlen Hd Hwa Hwd Hext Hdot name y mo d Hvalid. split.
  - unfold parse_datetime_from_filename. subst name.
    assert ("IMG-" ++ date ++ "-WA" ++ wa ++ "." ++ ext
            = ("IMG-" ++ date ++ "-WA" ++ wa) ++ String "." ext) as ->.
    { change ("." ++ ext) with (String "." ext).
      rewrite !app_assoc. reflexivity. }
    rewrite stem_ext by done. by apply whatsapp_name_matches.
  - by apply whatsapp_name_resolves.
Qed.

Lemma C9_witness :
  parse_datetime_from_filename "IMG-20210704-WA0001.jpg" = (Some "20210704", None) /\
  decide_source "IMG-20210704-WA0001.jpg" true "zero" (mkDT 2022 3 1 9 30 0 0)
  = Ret (mkDT 2021 7 4 0 0 0 0).
Proof.
  apply (C9_whatsapp_name_resolves_to_its_date "20210704" "0001" "jpg"
           (mkDT 2022 3 1 9 30 0 0)); reflexivity || discriminate.
Defined.

(** C9, as stated, fails for digits that are no calendar date: the name
    matches the pattern, the matcher returns the digits, and the [datetime]
    constructor raises on month 13. *)
Lemma C9_month_13_raises :
  ~ resolves_to_date_at_midnight "IMG-20211345-WA0001.jpg" t2022.
Proof.
  intros H. specialize (H "20211345" ltac:(vm_compute; reflexivity)).
  vm_compute in H. discriminate H.
Qed.

(** The scenario of the specification, run through [process_file]: a dry
    run with [--from-filename] and [--time-default zero] on a JPEG last
    modified on 2022-03-01. *)
Example whatsapp_scenario :
  let path := "C:\siirto\IMG-20210704-WA0001.jpg" in
  let files : Files := {[ path := undated_jpeg ]} in
  process_file (env_ok (plain "mp4")) path true false true "zero" false files
  = Done (DRY_RUN "filename" "2021:07:04 00:00:00" path) files.
Proof. vm_compute. reflexivity. Qed.

(** C2 (the code breaks it): for every file name of the export-tool form
    YYYY-MM-DD, a separator, HH, MM and SS with their separators, and an
    extension, the matcher returns the date normalised to eight digits and
    no time: the two-digit hour group is taken as the time, the branch that
    would join hour, minute and second is never entered, and the length
    check then drops the time. *)
Theorem C2_export_tool_time_is_dropped yyyy mm dd hh mi ss s1 s2 s3 s4 s5 ext :
  String.length yyyy = 4%nat -> String.length mm = 2%nat ->
  String.length dd = 2%nat -> String.length hh = 2%nat ->
  String.length mi = 2%nat -> String.length ss = 2%nat ->
  all_digits (yyyy ++ mm ++ dd ++ hh ++ mi ++ ss) = true ->
  contains_char s1 "-_" = true -> contains_char s2 "-_" = true ->
  contains_char s3 " _T.-" = true ->
  contains_char s4 ".-_:" = true -> contains_char s5 ".-_:" = true ->
  ext <> "" -> contains_char "." ext = false ->
  parse_datetime_from_filename
    (yyyy ++ String s1 (mm ++ String s2 (dd ++ String s3 (hh ++ String s4
       (mi ++ String s5 (ss ++ String "." ext))))))
  = (Some (yyyy ++ mm ++ dd), None).
Proof.
  intros Hy Hm Hd Hh Hi Hs Hdig H1 H2 H3 H4 H5 Hext Hdot.
  unfold parse_datetime_from_filename.
  assert (yyyy ++ String s1 (mm ++ String s2 (dd ++ String s3 (hh ++ String s4
            (mi ++ String s5 (ss ++ String "." ext)))))
          = (yyyy ++ String s1 (mm ++ String s2 (dd ++ String s3 (hh ++ String s4
               (mi ++ String s5 ss))))) ++ String "." ext) as ->.
  { destruct (length4 _ Hy) as (y1&y2&y3&y4&->).
    destruct (length2 _ Hm) as (m1&m2&->). destruct (length2 _ Hd) as (d1&d2&->).
    destruct (length2 _ Hh) as (h1&h2&->). destruct (length2 _ Hi) as (i1&i2&->).
    destruct (length2 _ Hs) as (e1&e2&->). reflexivity. }
  rewrite stem_ext; [by apply export_tool_name_matches | | done | done].
  destruct yyyy; [discriminate Hy | done].
Qed.

Lemma C2_witness :
  parse_datetime_from_filename "2023-01-15 14.30.00.jpg" = (Some "20230115", None).
Proof.
  apply (C2_export_tool_time_is_dropped "2023" "01" "15" "14" "30" "00"
           "-" "-" " " "." "." "jpg"); reflexivity || discriminate.
Defined.

End Jpeg.

(* ===================================================================== *)
(** * The EXIF helpers of whatsapp.py *)
(* ===================================================================== *)

Module ExifFacts.
Import Py Re Os Script Fixtures Facts Matcher Frame Resolver Whatsapp WhatsappMain.

(** ** [ensure_exif_dict] *)

Lemma setdefault_lookup k d j :
  setdefault k d !! j = match d !! j with
                        | Some t => Some t
                        | None => if decide (k = j) then Some ∅ else None
                        end.
Proof.
  unfold setdefault. destruct (d !! k) eqn:Hk.
  - destruct (d !! j) eqn:Hj; [done|]. case_decide; [congruence|done].
  - rewrite lookup_insert. case_decide; subst.
    + by rewrite Hk.
    + by destruct (d !! j).
Qed.

Lemma elem_of_IFDS j :
  j ∈ IFDS <-> j = "0th" \/ j = "Exif" \/ j = "GPS" \/ j = "1st".
Proof.
  unfold IFDS. rewrite !elem_of_cons, elem_of_nil. tauto.
Qed.

Lemma ensure_exif_dict_lookup d j :
  ensure_exif_dict d !! j
  = match d !! j with
    | Some t => Some t
    | None => if bool_decide (j ∈ IFDS) then Some ∅ else None
    end.
Proof.
  assert (ensure_exif_dict d !! j
          = match d !! j with
            | Some t => Some t
            | None => if decide ("1st" = j) then Some ∅
                      else if decide ("GPS" = j) then Some ∅
                      else if decide ("Exif" = j) then Some ∅
                      else if decide ("0th" = j) then Some ∅ else None
            end) as ->.
  { unfold ensure_exif_dict. case_decide as Hd.
    - subst d. rewrite lookup_empty.
      rewrite !lookup_insert, lookup_empty.
      repeat case_decide; subst; try reflexivity; congruence.
    - rewrite !setdefault_lookup. destruct (d !! j); [done|].
      repeat case_decide; subst; reflexivity || congruence. }
  destruct (d !! j); [done|].
  case_bool_decide as Hin.
  - apply elem_of_IFDS in Hin. destruct Hin as [Hj|[Hj|[Hj|Hj]]]; subst j; reflexivity.
  - repeat case_decide; subst; try reflexivity;
      exfalso; apply Hin, elem_of_IFDS; tauto.
Qed.

Lemma ensure_exif_dict_spec d :
  (forall ifd, ifd ∈ IFDS -> is_Some (ensure_exif_dict d !! ifd)) /\
  (forall ifd t, d !! ifd = Some t -> ensure_exif_dict d !! ifd = Some t) /\
  (forall ifd, d !! ifd = None -> ifd ∉ IFDS -> ensure_exif_dict d !! ifd = None) /\
  ensure_exif_dict (ensure_exif_dict d) = ensure_exif_dict d.
Proof.
  repeat split.
  - intros ifd Hin. rewrite ensure_exif_dict_lookup.
    destruct (d !! ifd); [by eexists|].
    rewrite bool_decide_eq_true_2 by done. by eexists.
  - intros ifd t H. by rewrite ensure_exif_dict_lookup, H.
  - intros ifd H Hn. rewrite ensure_exif_dict_lookup, H.
    by rewrite bool_decide_eq_false_2.
  - apply map_eq. intros j. rewrite !ensure_exif_dict_lookup.
    destruct (d !! j); [done|]. by destruct (bool_decide _).
Qed.


(** ** Writing the three dates *)

Lemma set_tag_lookup ifd tag v d d' i g :
  set_tag ifd tag v d = Ret d' ->
  tag_of d' i g = if decide (ifd = i /\ tag = g) then Some v else tag_of d i g.
Proof.
  unfold set_tag, tag_of. destruct (d !! ifd) as [t|] eqn:Ht; [|done].
  intros [= <-]. rewrite lookup_insert.
  destruct (decide (ifd = i)) as [->|Hne]; simpl.
  - rewrite Ht. simpl. rewrite lookup_insert.
    destruct (decide (tag = g)) as [->|Hg].
    + by rewrite decide_True.
    + rewrite decide_False; [done|]. intros [_ ?]. done.
  - rewrite decide_False; [done|]. intros [? _]. done.
Qed.

Lemma set_tag_dom ifd tag v d d' :
  set_tag ifd tag v d = Ret d' -> dom d' = dom d.
Proof.
  unfold set_tag. destruct (d !! ifd) as [t|] eqn:Ht; [|done].
  intros [= <-]. apply dom_insert_lookup_L. by eexists.
Qed.

Lemma set_exif_dates_ensured d dt :
  exists d',
    set_exif_dates (ensure_exif_dict d) dt = Ret d' /\
    dom d' = dom (ensure_exif_dict d) /\
    forall ifd tag,
      tag_of d' ifd tag
      = if written ifd tag then Some (dt_to_exif_string dt)
        else tag_of (ensure_exif_dict d) ifd tag.
Proof.
  destruct (ensure_exif_dict_spec d) as (Hk & _).
  destruct (Hk "Exif") as [te Hte]; [apply elem_of_IFDS; tauto|].
  destruct (Hk "0th") as [t0 Ht0]; [apply elem_of_IFDS; tauto|].
  set (e := ensure_exif_dict d) in *. set (s := dt_to_exif_string dt).
  destruct (set_tag "Exif" Whatsapp.DateTimeOriginal s e) as [d1|] eqn:H1;
    [|unfold set_tag in H1; rewrite Hte in H1; done].
  assert (is_Some (d1 !! "Exif")) as [t1 Ht1].
  { apply elem_of_dom. rewrite (set_tag_dom _ _ _ _ _ H1). apply elem_of_dom. by eexists. }
  destruct (set_tag "Exif" DateTimeDigitized s d1) as [d2|] eqn:H2;
    [|unfold set_tag in H2; rewrite Ht1 in H2; done].
  assert (is_Some (d2 !! "0th")) as [t2 Ht2].
  { apply elem_of_dom. rewrite (set_tag_dom _ _ _ _ _ H2), (set_tag_dom _ _ _ _ _ H1).
    apply elem_of_dom. by eexists. }
  destruct (set_tag "0th" DateTime s d2) as [d3|] eqn:H3;
    [|unfold set_tag in H3; rewrite Ht2 in H3; done].
  exists d3. split; [|split].
  - unfold set_exif_dates, mbind, outcome_bind, bind. fold s. by rewrite H1, H2.
  - by rewrite (set_tag_dom _ _ _ _ _ H3), (set_tag_dom _ _ _ _ _ H2),
      (set_tag_dom _ _ _ _ _ H1).
  - intros ifd tag.
    rewrite (set_tag_lookup _ _ _ _ _ ifd tag H3),
      (set_tag_lookup _ _ _ _ _ ifd tag H2), (set_tag_lookup _ _ _ _ _ ifd tag H1).
    unfold written, Whatsapp.DateTimeOriginal, DateTimeDigitized, DateTime.
    repeat case_decide;
      repeat match goal with H : _ /\ _ |- _ => destruct H end;
      subst; try reflexivity.
    all: destruct (String.eqb_spec ifd "Exif"), (String.eqb_spec ifd "0th");
      subst; simpl; try congruence;
      repeat match goal with
             | |- context [?a =? ?b] => destruct (Z.eqb_spec a b); subst; simpl
             end; try reflexivity; try congruence; exfalso; tauto.
Qed.

(** X2: on a dictionary that went through [ensure_exif_dict],
    [set_exif_dates] never raises; it leaves the same IFDs, writes the text
    of the instant into DateTimeOriginal and DateTimeDigitized of "Exif" and
    into DateTime of "0th", and keeps every other tag as it was. *)
Theorem set_exif_dates_after_ensure d dt :
  exists d',
    set_exif_dates (ensure_exif_dict d) dt = Ret d' /\
    dom d' = dom (ensure_exif_dict d) /\
    forall ifd tag,
      tag_of d' ifd tag
      = if written ifd tag then Some (dt_to_exif_string dt)
        else tag_of (ensure_exif_dict d) ifd tag.
Proof. apply set_exif_dates_ensured. Qed.

(** ** Reading back what was written *)

Lemma rstrip_cons a t :
  rstrip t = t -> t <> "" -> rstrip (String a t) = String a t.
Proof. intros Ht Hne. cbn [rstrip]. rewrite Ht. by destruct t. Qed.

Lemma rstrip_last c : is_space c = false -> rstrip (String c "") = String c "".
Proof. intros Hc. cbn [rstrip]. by rewrite Hc. Qed.

Lemma digit_char_code d :
  nat_of_ascii (digit_char d) = Z.to_nat (48 + d mod 10).
Proof.
  unfold digit_char. apply nat_ascii_embedding.
  pose proof (Z.mod_pos_bound d 10 ltac:(lia)). lia.
Qed.

Lemma digit_char_not_space d : is_space (digit_char d) = false.
Proof.
  unfold is_space. rewrite digit_char_code.
  pose proof (Z.mod_pos_bound d 10 ltac:(lia)) as H.
  cbv zeta.
  replace ((9 <=? Z.to_nat (48 + d mod 10))%nat) with true
    by (symmetry; apply Nat.leb_le; lia).
  replace ((Z.to_nat (48 + d mod 10) <=? 13)%nat) with false
    by (symmetry; apply Nat.leb_gt; lia).
  replace ((Z.to_nat (48 + d mod 10) <=? 32)%nat) with false
    by (symmetry; apply Nat.leb_gt; lia).
  simpl. by rewrite andb_false_r.
Qed.

(** The EXIF text of an instant has no blank at either end. *)
Lemma strip_exif_string dt : strip (dt_to_exif_string dt) = dt_to_exif_string dt.
Proof.
  unfold strip, dt_to_exif_string, strftime_exif.
  cbv [pad String.append].
  cbn [lstrip]. rewrite digit_char_not_space.
  repeat (apply rstrip_cons; [|done]).
  apply rstrip_last, digit_char_not_space.
Qed.

Lemma truthy_exif_string dt : truthy (dt_to_exif_string dt) = true.
Proof. unfold dt_to_exif_string, strftime_exif. cbv [pad String.append]. reflexivity. Qed.

(** X3: what [set_exif_dates] writes, [exif_get_field] reads back: after
    the write on an ensured dictionary the three date fields read as the
    text of the instant, unchanged by the stripping of blanks, and
    [exif_has_datetime_original] holds. *)
Theorem exif_date_round_trip d dt :
  exists d',
    set_exif_dates (ensure_exif_dict d) dt = Ret d' /\
    exif_get_field d' "Exif" Whatsapp.DateTimeOriginal = Some (dt_to_exif_string dt) /\
    exif_get_field d' "Exif" DateTimeDigitized = Some (dt_to_exif_string dt) /\
    exif_get_field d' "0th" DateTime = Some (dt_to_exif_string dt) /\
    exif_has_datetime_original d' = true.
Proof.
  destruct (set_exif_dates_ensured d dt) as (d' & Hset & Hdom & Htag).
  exists d'. split; [exact Hset|].
  assert (forall ifd tag, written ifd tag = true ->
            exif_get_field d' ifd tag = Some (dt_to_exif_string dt)) as Hget.
  { intros ifd tag Hw. specialize (Htag ifd tag). rewrite Hw in Htag.
    unfold tag_of in Htag. unfold exif_get_field.
    destruct (d' !! ifd) as [t|]; [|done]. simpl in Htag. rewrite Htag. simpl.
    by rewrite strip_exif_string, truthy_exif_string. }
  repeat split; try (apply Hget; reflexivity).
  unfold exif_has_datetime_original. rewrite Hget by reflexivity.
  by apply bool_decide_eq_true_2.
Qed.

(** ** A blank [DateTimeOriginal] *)

(** X4: the two scripts disagree on a [DateTimeOriginal] that holds only
    blanks.  [has_exif_datetime] of script.py tests that the key is there
    and answers [True]; [exif_has_datetime_original] of whatsapp.py strips
    the value and treats the empty rest as missing. *)
Theorem blank_date_is_present_for_script_absent_for_whatsapp
    path s f d t v :
  fs s !! path = Some f -> exif f = Some d ->
  d !! "Exif" = Some t -> t !! Script.DateTimeOriginal = Some v ->
  strip v = "" ->
  has_exif_datetime path s = Done true s /\
  exif_has_datetime_original (ensure_exif_dict d) = false.
Proof.
  intros Hf Hd Ht Hv Hblank. split.
  - unfold has_exif_datetime, piexif_load. run_monad.
    rewrite Hf, Hd. simpl. rewrite Ht, Hv. destruct s; reflexivity.
  - unfold exif_has_datetime_original, exif_get_field.
    destruct (ensure_exif_dict_spec d) as (_ & Hkeep & _).
    rewrite (Hkeep _ _ Ht).
    change Whatsapp.DateTimeOriginal with Script.DateTimeOriginal.
    rewrite Hv. simpl. rewrite Hblank. reflexivity.
Qed.

Lemma blank_date_witness :
  let d : ExifDict := {[ "Exif" := {[ Script.DateTimeOriginal := "   " ]} ]} in
  let s := mkState {[ "C:\siirto\p.jpg" :=
                        mkFile t2023 t2022 t2023 (Some d) None "JFIF" ]} stats0 in
  has_exif_datetime "C:\siirto\p.jpg" s = Done true s /\
  exif_has_datetime_original (ensure_exif_dict d) = false.
Proof.
  intros d s.
  apply (blank_date_is_present_for_script_absent_for_whatsapp
           "C:\siirto\p.jpg" s (mkFile t2023 t2022 t2023 (Some d) None "JFIF") d
           {[ Script.DateTimeOriginal := "   " ]} "   ").
  - vm_compute. reflexivity.
  - reflexivity.
  - vm_compute. reflexivity.
  - vm_compute. reflexivity.
  - reflexivity.
Defined.

(** ** [set_exif_dates] without [ensure_exif_dict] *)

(** X5: on an arbitrary dictionary [set_exif_dates] raises [KeyError]
    exactly when the "Exif" or the "0th" IFD is missing, and returns when
    both are there. *)
Theorem set_exif_dates_raises_iff_ifd_missing d dt :
  (set_exif_dates d dt = Raise KeyError <-> d !! "Exif" = None \/ d !! "0th" = None) /\
  (is_Some (d !! "Exif") -> is_Some (d !! "0th") ->
   exists d', set_exif_dates d dt = Ret d').
Proof.
  unfold set_exif_dates, set_tag, mbind, outcome_bind, bind.
  destruct (d !! "Exif") as [t|] eqn:He; cbn.
  - rewrite lookup_insert_eq. cbn.
    rewrite !lookup_insert_ne by done.
    destruct (d !! "0th") as [t0|] eqn:H0; cbn.
    + split; [|eauto]. split; [done|]. by intros [?|?].
    + split; [|by intros _ [? ?]]. split; [by right|done].
  - split; [|by intros [? ?]]. split; [by left|done].
Qed.

(** ** [exif_get_field] *)






End ExifFacts.

(* ===================================================================== *)
(** * The file names that whatsapp.py reads dates from *)
(* ===================================================================== *)

Module Names.
Import Py Re Os Script Fixtures Facts Matcher Frame Resolver Whatsapp WhatsappMain.

(** ** Tactics for runs of a pattern *)

Lemma length6 (s : string) :
  String.length s = 6%nat ->
  exists c1 c2 c3 c4 c5 c6,
    s = String c1 (String c2 (String c3 (String c4 (String c5 (String c6 ""))))).
Proof.
  intros H. do 6 (destruct s as [|? s]; [discriminate H|]).
  destruct s; [|discriminate H]. by eexists _, _, _, _, _, _.
Qed.

(** Evaluates the tests on explicit characters and the group look-ups that
    a run of a pattern leaves behind. *)
Ltac eval_closed :=
  repeat match goal with
         | |- context [bool_decide ?P] =>
             let b := eval vm_compute in (bool_decide P) in
             lazymatch b with
             | true => change (bool_decide P) with true
             | false => change (bool_decide P) with false
             end
         | |- context [group ?k ?g] =>
             let v := eval vm_compute in (group k g) in
             lazymatch v with
             | Some _ => change (group k g) with v
             | None => change (group k g) with v
             end
         end.

(** Closes every group of a match, one after the other. *)
Ltac close_all_groups :=
  rewrite ?Ascii.eqb_refl;
  repeat (rewrite ?consumed_same; rewrite consumed_cons by (simpl; lia));
  rewrite ?consumed_same.


(** ** The groups of a match, whatever the subject *)






(** ** Stems with a date and a time *)

Lemma pxl_stem_matches date time rest :
  String.length date = 8%nat -> all_digits date = true ->
  String.length time = 6%nat -> all_digits time = true ->
  parse_loop FILENAME_PATTERNS ("PXL_" ++ date ++ "_" ++ time ++ rest)
  = (Some date, Some time).
Proof.
  intros Hd Hdd Ht Htd.
  destruct (length8 _ Hd) as (c1&c2&c3&c4&c5&c6&c7&c8&->).
  destruct (length6 _ Ht) as (t1&t2&t3&t4&t5&t6&->).
  digits_hyps Hdd. digits_hyps Htd.
  cbv [String.append]. fold String.append.
  unfold FILENAME_PATTERNS, parse_loop.
  rewrite try_pattern_no_match by (unfold RX_WHATSAPP; run_re; reflexivity).
  unfold try_pattern. cbn [rx pattern].
  assert (re_match RX_PXL
            (String "P" (String "X" (String "L" (String "_"
              (String c1 (String c2 (String c3 (String c4 (String c5 (String c6
                (String c7 (String c8 (String "_"
              (String t1 (String t2 (String t3 (String t4 (String t5 (String t6
                rest)))))))))))))))))))
          = Some [("date", String c1 (String c2 (String c3 (String c4 (String c5
                     (String c6 (String c7 (String c8 ""))))))));
                  ("time", String t1 (String t2 (String t3 (String t4 (String t5
                     (String t6 ""))))))]) as ->.
  { unfold RX_PXL. run_re. use_chars. close_all_groups. reflexivity. }
  rewrite !gd_get_groupdict, !gd_has_groupdict. eval_closed.
  cbn -[is_digit Ascii.eqb re_split String.length].
  rewrite !digit_no_dash, !digit_no_underscore by done.
  reflexivity.
Qed.

Lemma compact_stem_matches date sep time rest :
  String.length date = 8%nat -> all_digits date = true ->
  contains_char sep "_-" = true ->
  String.length time = 6%nat -> all_digits time = true ->
  parse_loop FILENAME_PATTERNS (date ++ String sep (time ++ rest))
  = (Some date, Some time).
Proof.
  intros Hd Hdd Hsep Ht Htd.
  destruct (length8 _ Hd) as (c1&c2&c3&c4&c5&c6&c7&c8&->).
  destruct (length6 _ Ht) as (t1&t2&t3&t4&t5&t6&->).
  digits_hyps Hdd. digits_hyps Htd.
  cbv [String.append]. fold String.append.
  unfold FILENAME_PATTERNS, parse_loop.
  rewrite try_pattern_no_match
    by (unfold RX_WHATSAPP; run_re; rewrite !(digit_neq c1) by done; reflexivity).
  rewrite try_pattern_no_match
    by (unfold RX_PXL; run_re; rewrite !(digit_neq c1) by done; reflexivity).
  unfold try_pattern. cbn [rx pattern].
  assert (re_match RX_COMPACT
            (String c1 (String c2 (String c3 (String c4 (String c5 (String c6
                (String c7 (String c8 (String sep
              (String t1 (String t2 (String t3 (String t4 (String t5 (String t6
                rest)))))))))))))))
          = Some [("date", String c1 (String c2 (String c3 (String c4 (String c5
                     (String c6 (String c7 (String c8 ""))))))));
                  ("time", String t1 (String t2 (String t3 (String t4 (String t5
                     (String t6 ""))))))]) as ->.
  { unfold RX_COMPACT, one_of. run_re. use_chars. close_all_groups. reflexivity. }
  rewrite !gd_get_groupdict, !gd_has_groupdict. eval_closed.
  cbn -[is_digit Ascii.eqb re_split String.length].
  rewrite !digit_no_dash, !digit_no_underscore by done.
  reflexivity.
Qed.

(** ** Stems that start with a date *)

Lemma leading_date_stem_matches date rest :
  String.length date = 8%nat -> all_digits date = true ->
  match rest with
  | String c _ => contains_char c "_-" = false
  | EmptyString => True
  end ->
  parse_loop FILENAME_PATTERNS (date ++ rest) = (Some date, None).
Proof.
  intros Hd Hdd Hrest.
  destruct (length8 _ Hd) as (c1&c2&c3&c4&c5&c6&c7&c8&->).
  digits_hyps Hdd.
  cbv [String.append]. fold String.append.
  unfold FILENAME_PATTERNS, parse_loop.
  rewrite try_pattern_no_match
    by (unfold RX_WHATSAPP; run_re; rewrite !(digit_neq c1) by done; reflexivity).
  rewrite try_pattern_no_match
    by (unfold RX_PXL; run_re; rewrite !(digit_neq c1) by done; reflexivity).
  rewrite try_pattern_no_match
    by (unfold RX_COMPACT, one_of; run_re; use_chars;
        destruct rest; [reflexivity | by rewrite Hrest]).
  rewrite try_pattern_no_match
    by (unfold RX_EXPORT, one_of; run_re; use_chars;
        by rewrite (digit_not_sep c5)).
  unfold try_pattern. cbn [rx pattern].
  assert (re_match RX_LEADING
            (String c1 (String c2 (String c3 (String c4 (String c5 (String c6
                (String c7 (String c8 rest))))))))
          = Some [("date", String c1 (String c2 (String c3 (String c4 (String c5
                     (String c6 (String c7 (String c8 ""))))))))]) as ->.
  { unfold RX_LEADING. run_re. use_chars. close_all_groups. reflexivity. }
  rewrite !gd_get_groupdict, !gd_has_groupdict. eval_closed.
  cbn -[is_digit Ascii.eqb re_split String.length].
  rewrite !digit_no_dash, !digit_no_underscore by done.
  reflexivity.
Qed.

(** ** Stems that no pattern matches *)



(** ** What one turn of the loop hands on *)









(** ** From the matched digits to the instant *)

Lemma all_digits_substring s i n :
  all_digits s = true -> all_digits (substring i n s) = true.
Proof.
  revert i n. induction s as [|c s IH]; intros i n H.
  - by destruct i, n.
  - simpl in H. apply andb_true_iff in H as [Hc Hs].
    destruct i as [|i], n as [|n]; simpl; try done.
    + by rewrite Hc, IH.
    + by apply IH.
    + by apply IH.
Qed.

Lemma int_slice date i j :
  all_digits date = true -> slice i j date <> "" ->
  int (slice i j date) = Ret (digits_value 0 (slice i j date)).
Proof.
  intros Hd Hne. apply int_digits; [done|]. by apply all_digits_substring.
Qed.

Lemma compose_datetime_with_time date time policy mtime :
  String.length date = 8%nat -> all_digits date = true ->
  String.length time = 6%nat -> all_digits time = true ->
  compose_datetime date (Some time) policy mtime
  = datetime_new (digits_value 0 (slice 0 4 date)) (digits_value 0 (slice 4 6 date))
                 (digits_value 0 (slice 6 8 date)) (digits_value 0 (slice 0 2 time))
                 (digits_value 0 (slice 2 4 time)) (digits_value 0 (slice 4 6 time)).
Proof.
  intros Hd Hdd Ht Htd. unfold compose_datetime, mbind, outcome_bind, bind.
  destruct (length8 _ Hd) as (c1&c2&c3&c4&c5&c6&c7&c8&->).
  destruct (length6 _ Ht) as (t1&t2&t3&t4&t5&t6&->).
  rewrite !int_slice by done. reflexivity.
Qed.

Lemma compose_datetime_date_only date policy mtime :
  String.length date = 8%nat -> all_digits date = true ->
  compose_datetime date None policy mtime
  = let y := digits_value 0 (slice 0 4 date) in
    let mo := digits_value 0 (slice 4 6 date) in
    let d := digits_value 0 (slice 6 8 date) in
    if String.eqb policy "keep-mtime"
    then datetime_new y mo d (hour mtime) (minute mtime) (second mtime)
    else if String.eqb policy "noon" then datetime_new y mo d 12 0 0
    else datetime_new y mo d 0 0 0.
Proof.
  intros Hd Hdd. unfold compose_datetime, mbind, outcome_bind, bind.
  destruct (length8 _ Hd) as (c1&c2&c3&c4&c5&c6&c7&c8&->).
  rewrite !int_slice by done. reflexivity.
Qed.

Lemma decide_source_parsed name date time policy mtime :
  parse_datetime_from_filename name = (Some date, time) ->
  String.length date = 8%nat ->
  decide_source name true policy mtime = compose_datetime date time policy mtime.
Proof.
  intros Hp Hd. unfold decide_source. rewrite Hp.
  destruct date as [|c date]; [discriminate Hd|]. cbn [truthy].
  unfold mbind, outcome_bind, bind.
  by destruct (compose_datetime _ _ _ _).
Qed.

(** ** Names of each form *)

(** X8: a name PXL_YYYYMMDD_HHMMSS, whatever follows the six digits,
    with an extension: the matcher returns the eight digits as the date and
    the six digits as the time, and the resolution from the file name is the
    call of the [datetime] constructor on these numbers (its [ValueError] on
    a field out of range included), whatever the time policy and the
    modified time of the file. *)
Theorem pxl_name_resolves_to_its_date_and_time date time rest ext policy mtime :
  String.length date = 8%nat -> all_digits date = true ->
  String.length time = 6%nat -> all_digits time = true ->
  ext <> "" -> contains_char "." ext = false ->
  let name := "PXL_" ++ date ++ "_" ++ time ++ rest ++ "." ++ ext in
  parse_datetime_from_filename name = (Some date, Some time) /\
  decide_source name true policy mtime
  = datetime_new (digits_value 0 (slice 0 4 date)) (digits_value 0 (slice 4 6 date))
                 (digits_value 0 (slice 6 8 date)) (digits_value 0 (slice 0 2 time))
                 (digits_value 0 (slice 2 4 time)) (digits_value 0 (slice 4 6 time)).
Proof.
  intros Hd Hdd Ht Htd Hext Hdot name.
  assert (parse_datetime_from_filename name = (Some date, Some time)) as Hp.
  { unfold parse_datetime_from_filename. subst name.
    assert ("PXL_" ++ date ++ "_" ++ time ++ rest ++ "." ++ ext
            = ("PXL_" ++ date ++ "_" ++ time ++ rest) ++ String "." ext) as ->.
    { change ("." ++ ext) with (String "." ext). rewrite !app_assoc. reflexivity. }
    rewrite stem_ext by done. by apply pxl_stem_matches. }
  split; [exact Hp|].
  rewrite (decide_source_parsed _ _ _ _ _ Hp Hd).
  by apply compose_datetime_with_time.
Qed.

Lemma pxl_name_witness :
  parse_datetime_from_filename "PXL_20230115_143000123.jpg"
  = (Some "20230115", Some "143000") /\
  decide_source "PXL_20230115_143000123.jpg" true "noon" t2022
  = datetime_new 2023 1 15 14 30 0.
Proof.
  apply (pxl_name_resolves_to_its_date_and_time "20230115" "143000" "123" "jpg"
           "noon" t2022); reflexivity || discriminate.
Defined.

(** X9: a name YYYYMMDD_HHMMSS or YYYYMMDD-HHMMSS, whatever follows, with
    an extension: the matcher returns the date and the time, and the
    resolution from the file name is the call of the [datetime] constructor
    on these numbers, whatever the time policy and the modified time. *)
Theorem compact_name_resolves_to_its_date_and_time
    date sep time rest ext policy mtime :
  String.length date = 8%nat -> all_digits date = true ->
  contains_char sep "_-" = true ->
  String.length time = 6%nat -> all_digits time = true ->
  ext <> "" -> contains_char "." ext = false ->
  let name := date ++ String sep (time ++ rest ++ "." ++ ext) in
  parse_datetime_from_filename name = (Some date, Some time) /\
  decide_source name true policy mtime
  = datetime_new (digits_value 0 (slice 0 4 date)) (digits_value 0 (slice 4 6 date))
                 (digits_value 0 (slice 6 8 date)) (digits_value 0 (slice 0 2 time))
                 (digits_value 0 (slice 2 4 time)) (digits_value 0 (slice 4 6 time)).
Proof.
  intros Hd Hdd Hsep Ht Htd Hext Hdot name.
  assert (parse_datetime_from_filename name = (Some date, Some time)) as Hp.
  { unfold parse_datetime_from_filename. subst name.
    assert (date ++ String sep (time ++ rest ++ "." ++ ext)
            = (date ++ String sep (time ++ rest)) ++ String "." ext) as ->.
    { change ("." ++ ext) with (String "." ext).
      change (String sep ?x) with (String sep "" ++ x).
      rewrite !app_assoc. reflexivity. }
    rewrite stem_ext; [by apply compact_stem_matches | | done | done].
    destruct date; [discriminate Hd | done]. }
  split; [exact Hp|].
  rewrite (decide_source_parsed _ _ _ _ _ Hp Hd).
  by apply compose_datetime_with_time.
Qed.

Lemma compact_name_witness :
  parse_datetime_from_filename "20230115-143000.jpg"
  = (Some "20230115", Some "143000") /\
  decide_source "20230115-143000.jpg" true "zero" t2022
  = datetime_new 2023 1 15 14 30 0.
Proof.
  apply (compact_name_resolves_to_its_date_and_time "20230115" "-" "143000" ""
           "jpg" "zero" t2022); reflexivity || discriminate.
Defined.

(** X10: a name that starts with eight digits and goes on with something
    other than "_" or "-" (or with nothing), with an extension: the matcher
    returns the date and no time, and the time of day comes from the policy:
    the hour, minute and second of the modified time for [keep-mtime],
    12:00:00 for [noon], 00:00:00 for every other value. *)
Theorem date_only_name_takes_its_time_from_the_policy
    date rest ext policy mtime :
  String.length date = 8%nat -> all_digits date = true ->
  match rest with
  | String c _ => contains_char c "_-" = false
  | EmptyString => True
  end ->
  ext <> "" -> contains_char "." ext = false ->
  let name := date ++ rest ++ "." ++ ext in
  let y := digits_value 0 (slice 0 4 date) in
  let mo := digits_value 0 (slice 4 6 date) in
  let d := digits_value 0 (slice 6 8 date) in
  parse_datetime_from_filename name = (Some date, None) /\
  decide_source name true "keep-mtime" mtime
  = datetime_new y mo d (hour mtime) (minute mtime) (second mtime) /\
  decide_source name true "noon" mtime = datetime_new y mo d 12 0 0 /\
  (policy <> "keep-mtime" -> policy <> "noon" ->
   decide_source name true policy mtime = datetime_new y mo d 0 0 0).
Proof.
  intros Hd Hdd Hrest Hext Hdot name y mo d.
  assert (parse_datetime_from_filename name = (Some date, None)) as Hp.
  { unfold parse_datetime_from_filename. subst name.
    assert (date ++ rest ++ "." ++ ext = (date ++ rest) ++ String "." ext) as ->.
    { change ("." ++ ext) with (String "." ext). rewrite !app_assoc. reflexivity. }
    rewrite stem_ext; [by apply leading_date_stem_matches | | done | done].
    destruct date; [discriminate Hd | done]. }
  split; [exact Hp|].
  repeat split; intros;
    rewrite (decide_source_parsed _ _ _ _ _ Hp Hd),
      compose_datetime_date_only by done; cbv zeta.
  - reflexivity.
  - reflexivity.
  - apply String.eqb_neq in H, H0. by rewrite H, H0.
Qed.

Lemma date_only_name_witness :
  parse_datetime_from_filename "20230115 beach.jpg" = (Some "20230115", None) /\
  decide_source "20230115 beach.jpg" true "keep-mtime" t2022
  = datetime_new 2023 1 15 9 30 0 /\
  decide_source "20230115 beach.jpg" true "noon" t2022
  = datetime_new 2023 1 15 12 0 0 /\
  decide_source "20230115 beach.jpg" true "zero" t2022
  = datetime_new 2023 1 15 0 0 0.
Proof.
  destruct (date_only_name_takes_its_time_from_the_policy "20230115" " beach"
              "jpg" "zero" t2022) as (H1 & H2 & H3 & H4);
    try (reflexivity || discriminate).
  split; [exact H1 | split; [exact H2 | split; [exact H3 |]]].
  apply H4; discriminate.
Defined.


(** ** From any name to the instant *)


End Names.

(* ===================================================================== *)
(** * A run of whatsapp.py *)
(* ===================================================================== *)

Module JpegRun.
Import Py Re Os Script Fixtures Facts Matcher Frame Resolver Whatsapp WhatsappMain.
Import ExifFacts Names.

(** Unfolds the monad of a call on the file tree. *)
Ltac run_files :=
  unfold mbind, M_bind, bindM, mret, M_ret, ret, raise, lift, try_except in *.

(** ** Which exceptions [process_file] lets through *)



(** ** What [process_file] leaves alone *)




(** ** What a write changes *)

Lemma process_file_updated_inv
    env path dry_run show_meta from_filename time_default force
    files files' src date p :
  process_file env path dry_run show_meta from_filename time_default force files
    = Done (UPDATED src date p) files' ->
  exists f dt d',
    files !! path = Some f /\
    dry_run = false /\ show_meta = false /\
    decide_source (path_name path) from_filename time_default (mtime f) = Ret dt /\
    set_exif_dates (ensure_exif_dict (default ∅ (exif f))) dt = Ret d' /\
    date = dt_to_exif_string dt /\ p = path /\
    src = (if from_filename then "filename" else "mtime") /\
    files' = <[path := mkFile (ctime f) (mtime f) (atime f) (Some d')
                              (creation_time f) (data f)]> files.
Proof.
  unfold process_file, stat, piexif_load, piexif_dump_insert, utime. run_files.
  destruct (files !! path) as [f|] eqn:Hf; [|done].
  set (src0 := decide_source _ _ _ _).
  assert (src0 = decide_source (path_name path) from_filename time_default (mtime f))
    as Hsrc by reflexivity.
  clearbody src0. cbv zeta.
  intros H. exists f.
  repeat (case_match; simplify_eq/=).
  all: rewrite lookup_insert_eq in *; simplify_eq/=.
  all: match goal with
       | Hd : decide_source _ _ _ _ = Ret ?dt,
         Hs : set_exif_dates _ ?dt = Ret ?d |- _ => exists dt, d
       end.
  all: try match goal with He : exif _ = _ |- _ => rewrite He end.
  all: repeat split; try assumption; rewrite ?insert_insert_eq; reflexivity.
Qed.



(** ** A second run *)

Lemma has_original_after_write d dt d' :
  set_exif_dates (ensure_exif_dict d) dt = Ret d' ->
  exif_has_datetime_original (ensure_exif_dict d') = true.
Proof.
  intros Hset.
  destruct (set_exif_dates_ensured d dt) as (d'' & Hset' & _ & Htag).
  rewrite Hset in Hset'. simplify_eq.
  specialize (Htag "Exif" Whatsapp.DateTimeOriginal).
  change (written "Exif" Whatsapp.DateTimeOriginal) with true in Htag.
  unfold tag_of in Htag. unfold exif_has_datetime_original, exif_get_field.
  rewrite ensure_exif_dict_lookup.
  destruct (d'' !! "Exif") as [t|]; [|done]. simpl in Htag. rewrite Htag.
  unfold default. cbn [from_option id]. cbv zeta.
  by rewrite strip_exif_string, truthy_exif_string.
Qed.

(** X16: a file that [process_file] has reported UPDATED is skipped by
    every later call without [force] and without [show_meta], whatever the
    other options: the call returns the SKIP message and changes nothing. *)
Theorem process_file_skips_what_it_has_written
    env path dry_run show_meta from_filename time_default force
    files files' src date p :
  process_file env path dry_run show_meta from_filename time_default force files
    = Done (UPDATED src date p) files' ->
  forall env2 dry_run2 from_filename2 time_default2,
    process_file env2 path dry_run2 false from_filename2 time_default2 false files'
    = Done (SKIP path) files'.
Proof.
  intros H env2 dry2 ff2 td2.
  apply process_file_updated_inv
    in H as (f & dt & d' & Hf & _ & _ & _ & Hset & _ & _ & _ & ->).
  apply has_original_after_write in Hset.
  unfold process_file, stat, piexif_load. run_files.
  repeat (rewrite lookup_insert_eq;
          cbn -[ensure_exif_dict exif_has_datetime_original]).
  by rewrite Hset.
Qed.

Lemma process_file_skip_witness :
  let env := env_ok (plain "mp4") in
  let path := "C:\siirto\IMG-20210704-WA0001.jpg" in
  let files : Files := {[ path := undated_jpeg ]} in
  let files' := final (process_file env path false false true "zero" false files) in
  process_file env path false false false "noon" false files'
  = Done (SKIP path) files'.
Proof.
  intros env path files files'.
  apply (process_file_skips_what_it_has_written env path false false
           true "zero" false files files' "filename" "2021:07:04 00:00:00" path).
  vm_compute. reflexivity.
Defined.

(** ** What an error leaves behind *)

(** X17: when [process_file] reports ERROR, the file tree is the one
    before the call, with one exception: the refusal of [os.utime].  Then
    the EXIF dates have been written and stay written, and the access and
    modified times of the file are those of the write, not the original
    ones. *)
Theorem process_file_error_leaves_file_unless_utime_refused
    env path dry_run show_meta from_filename time_default force
    files files' p e :
  process_file env path dry_run show_meta from_filename time_default force files
    = Done (ERROR p e) files' ->
  p = path /\
  (files' = files \/
   (e = OSError /\ raises env OsUtime path = true /\
    exists f' d',
      files' !! path = Some f' /\ exif f' = Some d' /\
      mtime f' = now env /\ atime f' = now env /\
      exif_has_datetime_original (ensure_exif_dict d') = true)).
Proof.
  unfold process_file, stat, piexif_load, piexif_dump_insert, utime. run_files.
  destruct (files !! path) as [f|] eqn:Hf; [|done].
  set (src0 := decide_source _ _ _ _). clearbody src0. cbv zeta.
  intros H.
  repeat (case_match; simplify_eq/=); try (split; [done|by left]).
  all: try (rewrite lookup_insert_eq in *; simplify_eq/=).
  all: split; [done|]; right; repeat split; try done.
  all: eexists _, _; rewrite ?lookup_insert_eq; repeat split;
    eapply has_original_after_write; eassumption.
Qed.

Lemma process_file_error_witness :
  let env := mkEnv t_now (fun c _ => match c with OsUtime => true | _ => false end)
               (ffmpeg_ok (plain "mp4")) in
  let path := "C:\siirto\b.jpg" in
  let files : Files := {[ path := undated_jpeg ]} in
  let files' := final (process_file env path false false false "zero" false files) in
  path = path /\
  (files' = files \/
   (OSError = OSError /\ raises env OsUtime path = true /\
    exists f' d',
      files' !! path = Some f' /\ exif f' = Some d' /\
      mtime f' = now env /\ atime f' = now env /\
      exif_has_datetime_original (ensure_exif_dict d') = true)).
Proof.
  intros env path files files'.
  apply (process_file_error_leaves_file_unless_utime_refused env path false
           false false "zero" false files files' path OSError).
  vm_compute. reflexivity.
Defined.

(** ** The loop of [main] *)




End JpegRun.

(* ===================================================================== *)
(** * A walk of script.py, file by file *)
(* ===================================================================== *)

Module Tree.
Import Py Re Os Whatsapp Script Fixtures Facts Matcher Frame Resolver Batch WhatsappMain.

(** Unfolds a run of [script.py] down to the calls on the file tree. *)
Ltac run_script :=
  unfold process_path, process_photo, process_video, process_avi,
    create_xmp_sidecar, set_exif_datetime, has_exif_datetime, remove_if_exists,
    piexif_load, piexif_dump_insert, run_ffmpeg, replace, remove, exists_,
    write_text in *;
  run_monad.

(** ** The resolver *)

(** X19: an instant that [get_best_file_time] returns is never after the
    creation time nor after the modified time of the file, with or without a
    folder year in the path; and the call leaves the state as it was. *)
Theorem get_best_file_time_is_not_after_the_file_times path s f dt s' :
  fs s !! path = Some f ->
  get_best_file_time path s = Done dt s' ->
  s' = s /\
  dt_ltb (ctime f) dt = false /\ dt_ltb (mtime f) dt = false.
Proof.
  intros Hf H.
  pose proof (get_best_file_time_final path s) as Hfin. rewrite H in Hfin.
  simpl in Hfin. subst s'. split; [done|].
  destruct (Jpeg.get_best_file_time_min_or_cap _ _ _ _ Hf H) as [->|(y & Hy & ->)].
  - split; apply dt_min_earlier.
  - assert (forall t, year t >= year (dt_min (ctime f) (mtime f)) ->
                      dt_ltb t (mkDT y 12 31 23 59 59 0) = false) as Hlt.
    { intros t Ht. unfold dt_ltb, dt_key. cbn [lex_ltb year].
      destruct (year t <? y) eqn:E1; [lia|].
      destruct (year t =? y) eqn:E2; [lia|]. reflexivity. }
    unfold dt_min in *. destruct (dt_ltb (mtime f) (ctime f)) eqn:E.
    + split; apply Hlt; [|lia].
      unfold dt_ltb, dt_key in E. cbn [lex_ltb] in E.
      apply orb_true_iff in E as [E|E]; [lia|].
      apply andb_true_iff in E as [E _]. lia.
    + split; apply Hlt; [lia|].
      unfold dt_ltb, dt_key in E. cbn [lex_ltb] in E.
      apply orb_false_iff in E as [E1 E2].
      destruct (year (mtime f) <? year (ctime f)) eqn:E3; [done|]. lia.
Qed.

Lemma resolver_bound_witness :
  let path := "C:\siirto\2019\IMG_0001.png" in
  let f := mkFile t2023 t2022 t2023 None None "PNG" in
  let s := mkState {[ path := f ]} stats0 in
  s = s /\
  dt_ltb (ctime f) (mkDT 2019 12 31 23 59 59 0) = false /\
  dt_ltb (mtime f) (mkDT 2019 12 31 23 59 59 0) = false.
Proof.
  intros path f s.
  apply (get_best_file_time_is_not_after_the_file_times path s f
           (mkDT 2019 12 31 23 59 59 0) s).
  - vm_compute. reflexivity.
  - vm_compute. reflexivity.
Defined.

(** ** [has_exif_datetime] *)

Lemma has_exif_datetime_returns path s :
  exists b,
    has_exif_datetime path s = Done b s /\
    (b = true <->
     exists f d t,
       fs s !! path = Some f /\ exif f = Some d /\
       d !! "Exif" = Some t /\ is_Some (t !! Script.DateTimeOriginal)).
Proof.
  unfold has_exif_datetime, piexif_load. run_monad. destruct s as [f0 st0]. simpl.
  destruct (f0 !! path) as [f|] eqn:Hf; simpl.
  2:{ exists false. split; [done|]. split; [done|]. by intros (?&?&?&?&_). }
  destruct (exif f) as [d|] eqn:Hd; simpl.
  2:{ exists false. split; [done|]. split; [done|].
      intros (?&?&?&?&?&_). congruence. }
  destruct (d !! "Exif") as [t|] eqn:Ht; simpl.
  2:{ exists false. split; [done|]. split; [done|].
      intros (?&?&?&?&?&?&_). congruence. }
  eexists. split; [reflexivity|]. rewrite bool_decide_eq_true. split.
  - intros Hs. by exists f, d, t.
  - intros (?&?&?&?&?&?&?). congruence.
Qed.

(** X20: [has_exif_datetime] never raises and changes nothing.  It
    answers [True] exactly when the file is there, piexif can load it, the
    loaded dictionary has an "Exif" IFD and that IFD has the key
    DateTimeOriginal; a missing file, a failed load and a missing IFD all
    give [False]. *)
Theorem has_exif_datetime_swallows_every_failure path s :
  exists b,
    has_exif_datetime path s = Done b s /\
    (b = true <->
     exists f d t,
       fs s !! path = Some f /\ exif f = Some d /\
       d !! "Exif" = Some t /\ is_Some (t !! Script.DateTimeOriginal)).
Proof. apply has_exif_datetime_returns. Qed.

(** ** The EXIF write of [process_photo] *)

Lemma process_photo_changed_inv del env path s s' :
  process_photo (mkFlags false del) env path s = Done tt s' ->
  photos_changed (stats s') = photos_changed (stats s) + 1 ->
  exists f d t dt,
    fs s !! path = Some f /\ exif f = Some d /\ d !! "Exif" = Some t /\
    t !! Script.DateTimeOriginal = None /\
    get_best_file_time path s = Done dt s /\
    s' = mkState
           (<[path := mkFile (ctime f) (now env) (now env)
                        (Some (<["Exif" := <[Script.DateTimeOriginal := strftime_exif dt]> t]> d))
                        (creation_time f) (data f)]> (fs s))
           (incr PhotosChanged (stats s)).
Proof.
  intros H Hc.
  assert (exists dt, get_best_file_time path s = Done dt s) as [dt Hdt].
  { revert H Hc. unfold process_photo. run_monad.
    pose proof (get_best_file_time_final path s) as Hfin.
    destruct (negb (mem _ _)); [intros [= <-]; simpl; lia|].
    pose proof (has_exif_datetime_returns path s) as (b & -> & _).
    destruct b; simpl; [intros [= <-]; simpl; lia|].
    destruct (get_best_file_time path s) as [dt sg|e sg]; simpl in *; [|done].
    subst sg. eauto. }
  revert H Hc. unfold process_photo. run_monad.
  destruct (negb (mem _ _)); [intros [= <-]; simpl; lia|].
  unfold has_exif_datetime, set_exif_datetime, piexif_load, piexif_dump_insert.
  run_monad. cbn [DRY_RUN]. rewrite Hdt. destruct s as [f0 st0]. simpl in *.
  intros H Hc.
  repeat (case_match; simplify_eq/=; try lia).
  all: match goal with
       | H2 : get_best_file_time _ _ = Done _ ?s0 |- _ =>
           is_var s0; rewrite Hdt in H2; simplify_eq/=
       end.
  all: try lia.
  all: match goal with H : negb (bool_decide _) = true |- _ =>
         apply negb_true_iff, bool_decide_eq_false in H end.
  all: eexists _, _, _, _; repeat split; try done.
  all: match goal with |- ?t !! _ = None =>
         destruct (t !! Script.DateTimeOriginal) eqn:E; [|done] end.
  all: exfalso; eauto.
Qed.



(** X22: a photo that [process_photo] has written in Apply mode is
    skipped by every later call, in either mode: the call counts it as
    skipped and leaves the file tree as it is. *)
Theorem process_photo_skips_what_it_has_written del env path s s' :
  process_photo (mkFlags false del) env path s = Done tt s' ->
  photos_changed (stats s') = photos_changed (stats s) + 1 ->
  forall fl2 env2,
    process_photo fl2 env2 path s'
    = Done tt (mkState (fs s') (incr Skipped (stats s'))).
Proof.
  intros H Hc fl2 env2.
  destruct (process_photo_changed_inv _ _ _ _ _ H Hc)
    as (f & d & t & dt & Hf & Hd & Ht & Hnone & Hdt & ->).
  unfold process_photo. destruct (negb (mem _ _)); [reflexivity|].
  unfold has_exif_datetime, piexif_load. run_monad. cbn [fs].
  rewrite lookup_insert_eq. cbn. rewrite lookup_insert_eq. cbn.
  rewrite lookup_insert_eq. reflexivity.
Qed.

Lemma process_photo_skip_witness :
  let env := env_ok (plain "mp4") in
  let path := "C:\siirto\p.jpg" in
  let s := mkState {[ path := undated_jpeg ]} stats0 in
  let s' := final (process_photo APPLY env path s) in
  process_photo SIMULATE env path s'
  = Done tt (mkState (fs s') (incr Skipped (stats s'))).
Proof.
  intros env path s s'.
  apply (process_photo_skips_what_it_has_written false env path s s').
  - vm_compute. reflexivity.
  - vm_compute. reflexivity.
Defined.

(** ** Sidecars *)



(** ** The transcode of [process_avi] *)

Lemma app_inv_head (a b c : string) : a ++ b = a ++ c -> b = c.
Proof.
  induction a as [|x a IH]; [done|].
  change (String x (a ++ b) = String x (a ++ c) -> b = c).
  intros [= H]. by apply IH.
Qed.

Lemma avi_output_ne path : snd (splitext path) <> ".mp4" -> avi_output path <> path.
Proof.
  intros Hext Heq. unfold avi_output in Heq.
  pose proof (splitext_app path) as H. rewrite <- H in Heq at 2.
  apply app_inv_head in Heq. congruence.
Qed.

(** X24: for a path whose extension is not ".mp4" (so that the output of
    the transcode is another file), [process_avi] touches no file other than
    the original and the output.  The original is as it was, unless the
    flag to delete originals is set, the mode is Apply and the function
    returns [True]: then it is gone.  In Simulate mode nothing changes. *)
Theorem process_avi_keeps_original_unless_told fl env path s :
  snd (splitext path) <> ".mp4" ->
  let r := process_avi fl env path s in
  (forall q, q <> path -> q <> avi_output path ->
             fs (final r) !! q = fs s !! q) /\
  (fs (final r) !! path = fs s !! path \/
   (DRY_RUN fl = false /\ DELETE_ORIGINALS fl = true /\
    returned r = Some true /\ fs (final r) !! path = None)) /\
  (DRY_RUN fl = true -> fs (final r) = fs s).
Proof.
  intros Hext r. pose proof (avi_output_ne path Hext) as Hne.
  pose proof (get_best_file_time_final path s) as Hfin.
  subst r. unfold process_avi, run_ffmpeg, remove. run_monad.
  destruct (get_best_file_time path s) as [dt sg|e sg]; simpl in Hfin; subst sg;
    [|by repeat split; try left].
  destruct s as [f0 st0]. cbn [fs stats].
  destruct (DRY_RUN fl); [by repeat split; try left|].
  cbn.
  repeat (case_match; simplify_eq/=);
    (split; [intros q Hq1 Hq2;
             rewrite ?lookup_delete_ne, ?lookup_insert_ne by done; done|]);
    (split; [|done]);
    first [ left; rewrite ?lookup_insert_ne by done; done
          | right; repeat split; try done; by rewrite lookup_delete_eq ].
Qed.

Lemma process_avi_original_witness :
  let env := env_ok (plain "mp4") in
  let path := "C:\siirto\clip.avi" in
  let s := mkState {[ path := plain "RIFF" ]} stats0 in
  let fl := mkFlags false true in
  let r := process_avi fl env path s in
  (forall q, q <> path -> q <> avi_output path ->
             fs (final r) !! q = fs s !! q) /\
  (fs (final r) !! path = fs s !! path \/
   (DRY_RUN fl = false /\ DELETE_ORIGINALS fl = true /\
    returned r = Some true /\ fs (final r) !! path = None)) /\
  (DRY_RUN fl = true -> fs (final r) = fs s).
Proof.
  intros env path s fl.
  apply (process_avi_keeps_original_unless_told fl env path s).
  vm_compute. discriminate.
Defined.



(** ** One file of the walk *)

Lemma get_best_file_time_state path s (r : result State datetime) :
  get_best_file_time path s = r -> final r = s.
Proof. intros <-. apply get_best_file_time_final. Qed.

(** Puts the state after a call of the resolver back to the one before. *)
Ltac resolver_state :=
  repeat match goal with
         | H : get_best_file_time _ _ = Done _ ?s0 |- _ =>
             is_var s0; pose proof (get_best_file_time_state _ _ _ H);
             simpl in *; subst s0
         | H : get_best_file_time _ _ = Fail _ ?s0 |- _ =>
             is_var s0; pose proof (get_best_file_time_state _ _ _ H);
             simpl in *; subst s0
         end.







(** ** The files a run can touch *)

Lemma process_path_touches path q fl env s :
  q <> path -> q <> path ++ ".xmp" -> q <> tmpfile_of path ->
  q <> avi_output path ->
  fs (final (process_path fl env path s)) !! q = fs s !! q.
Proof.
  intros H1 H2 H3 H4.
  run_script. destruct s as [f0 st0]. cbn [fs stats] in *.
  repeat (case_match; simplify_eq/=; resolver_state;
          rewrite ?lookup_insert_ne, ?lookup_delete_ne, ?lookup_insert_ne by done;
          try done).
Qed.

(** X28: a run of [main] of script.py, whether it completes or an
    exception ends it, leaves every file alone that is none of the walked
    files, none of their sidecars [p + ".xmp"], none of their temp files and
    none of their transcode outputs. *)
Theorem main_touches_only_its_files_and_their_companions fl env paths q s :
  (forall p, In p paths ->
     q <> p /\ q <> p ++ ".xmp" /\ q <> tmpfile_of p /\ q <> avi_output p) ->
  fs (final (Script.main fl env paths s)) !! q = fs s !! q.
Proof.
  revert s. induction paths as [|p rest IH]; intros s Hq; [reflexivity|].
  rewrite main_cons.
  destruct (Hq p (or_introl eq_refl)) as (H1 & H2 & H3 & H4).
  pose proof (process_path_touches p q fl env s H1 H2 H3 H4) as Hp.
  destruct (process_path fl env p s) as [[] s1|e s1]; simpl in Hp.
  - rewrite IH; [exact Hp|]. intros p' Hin. apply Hq. by right.
  - exact Hp.
Qed.

Lemma main_touches_witness :
  let env := env_ok (plain "mp4") in
  let s := mkState {[ "C:\siirto\a.mp4" := plain "ftyp";
                      "C:\siirto\p.jpg" := undated_jpeg;
                      "C:\siirto\notes.txt" := plain "text" ]} stats0 in
  fs (final (Script.main APPLY env ["C:\siirto\a.mp4"; "C:\siirto\p.jpg"] s))
    !! "C:\siirto\notes.txt"
  = fs s !! "C:\siirto\notes.txt".
Proof.
  intros env s.
  apply (main_touches_only_its_files_and_their_companions APPLY env
           ["C:\siirto\a.mp4"; "C:\siirto\p.jpg"] "C:\siirto\notes.txt" s).
  intros p [<-|[<-|[]]]; repeat split; vm_compute; discriminate.
Defined.

(** ** The counters of a completed run *)



End Tree.
